(** * OtcForm: the form controller of the OTC trade component

    Shallow embedding of [electron-app/src/components/OtcForm.vue]
    (the script part, lines 92-178) and of the calls it makes into the
    date library, followed by the properties of the controller. *)

From Stdlib Require Import ZArith String Ascii List Bool Lia.
Import ListNotations.

Local Open Scope string_scope.
Local Open Scope Z_scope.

(* ===================================================================== *)
(** * Part I: definitions *)
(* ===================================================================== *)

(** ** JavaScript values used at the boundary *)

(** A JavaScript number as the component meets it: an integer count of
    seconds or milliseconds, or [NaN] (what [unix()] gives for an invalid
    date). *)
Inductive number : Type :=
| Num (z : Z)
| NaN.

(** ** The time value arithmetic of the Date object

    Modelled from the spec: the date library and the host Date object,
    through which the library reads and builds its dates in local time,
    are not among the sources.  The spec gives timestamps as seconds
    since the epoch and leaves the local-time interpretation to the
    library; the functions below are the abstract operations of the
    language standard (section "Time Values and Time Range" and
    following), on integers. *)
Module DateObject.

Definition msPerDay : Z := 86400000.
Definition msPerHour : Z := 3600000.
Definition msPerMinute : Z := 60000.
Definition msPerSecond : Z := 1000.
Definition HoursPerDay : Z := 24.
Definition MinutesPerHour : Z := 60.

(** Largest magnitude of a valid time value (TimeClip). *)
Definition maxTimeValue : Z := 8640000000000000.

Definition TimeClip (t : Z) : option Z :=
  if Z.abs t <=? maxTimeValue then Some t else None.

Definition Day (t : Z) : Z := t / msPerDay.

Definition isLeap (y : Z) : bool :=
  ((y mod 4 =? 0) && negb (y mod 100 =? 0)) || (y mod 400 =? 0).

Definition DaysInYear (y : Z) : Z := if isLeap y then 366 else 365.

Definition DayFromYear (y : Z) : Z :=
  365 * (y - 1970) + (y - 1969) / 4 - (y - 1901) / 100 + (y - 1601) / 400.

(** The year of a day number: the largest [y] with [DayFromYear y <= d].
    An estimate from the mean length of the year is off by at most one. *)
Definition YearFromDay (d : Z) : Z :=
  let y := 1970 + (400 * d) / 146097 in
  if d <? DayFromYear y then y - 1
  else if DayFromYear (y + 1) <=? d then y + 1
  else y.

Definition YearFromTime (t : Z) : Z := YearFromDay (Day t).

Definition InLeapYear (t : Z) : Z :=
  if isLeap (YearFromTime t) then 1 else 0.

Definition DayWithinYear (t : Z) : Z :=
  Day t - DayFromYear (YearFromTime t).

(** Day within the year on which month [m] (0 = January) starts. *)
Definition monthStart (leap : Z) (m : Z) : Z :=
  match m with
  | 0 => 0
  | 1 => 31
  | 2 => 59 + leap
  | 3 => 90 + leap
  | 4 => 120 + leap
  | 5 => 151 + leap
  | 6 => 181 + leap
  | 7 => 212 + leap
  | 8 => 243 + leap
  | 9 => 273 + leap
  | 10 => 304 + leap
  | 11 => 334 + leap
  | _ => 365 + leap
  end.

Definition MonthFromTime (t : Z) : Z :=
  let d := DayWithinYear t in
  let l := InLeapYear t in
  if d <? 31 then 0
  else if d <? 59 + l then 1
  else if d <? 90 + l then 2
  else if d <? 120 + l then 3
  else if d <? 151 + l then 4
  else if d <? 181 + l then 5
  else if d <? 212 + l then 6
  else if d <? 243 + l then 7
  else if d <? 273 + l then 8
  else if d <? 304 + l then 9
  else if d <? 334 + l then 10
  else 11.

Definition DateFromTime (t : Z) : Z :=
  DayWithinYear t - monthStart (InLeapYear t) (MonthFromTime t) + 1.

Definition HourFromTime (t : Z) : Z := (t / msPerHour) mod HoursPerDay.
Definition MinFromTime (t : Z) : Z := (t / msPerMinute) mod MinutesPerHour.

Definition MakeTime (hour min sec ms : Z) : Z :=
  hour * msPerHour + min * msPerMinute + sec * msPerSecond + ms.

Definition MakeDay (year month date : Z) : Z :=
  let ym := year + month / 12 in
  let mn := month mod 12 in
  DayFromYear ym + monthStart (if isLeap ym then 1 else 0) mn + date - 1.

Definition MakeDate (day time : Z) : Z := day * msPerDay + time.

(** The host's time zone: the offset of local time from UTC, in
    milliseconds, in force at a UTC time, and the offset the host takes
    for a local time.  Where clocks are set back or forward a local time
    occurs twice or not at all; the host then takes the offset from
    before the change. *)
Record Zone : Type := mkZone {
  offsetAtUTC : Z -> Z;
  offsetAtLocal : Z -> Z
}.

Definition LocalTZA (zone : Zone) (t : Z) (isUTC : bool) : Z :=
  if isUTC then offsetAtUTC zone t else offsetAtLocal zone t.

Definition LocalTime (zone : Zone) (t : Z) : Z := t + LocalTZA zone t true.
Definition UTC (zone : Zone) (t : Z) : Z := t - LocalTZA zone t false.

(** The local minute of [t] is read back with the offset that is in
    force at [t]. *)
Definition readsBack (zone : Zone) (t : Z) : Prop :=
  offsetAtLocal zone (LocalTime zone t - LocalTime zone t mod msPerMinute)
  = offsetAtUTC zone t.

(** A zone whose offset never changes, given in milliseconds. *)
Definition fixedOffset (ms : Z) : Zone :=
  mkZone (fun _ => ms) (fun _ => ms).

(** The same, for an offset of whole minutes. *)
Definition fixedZone (minutes : Z) : Zone :=
  fixedOffset (minutes * msPerMinute).

(** A zone with daylight saving time, central Europe around 2020: one
    hour ahead of UTC, two hours from 29 March 2020 01:00 UTC until
    25 October 2020 01:00 UTC. *)
Definition centralEurope2020 : Zone :=
  mkZone
    (fun t =>
       if (1585443600000 <=? t) && (t <? 1603587600000)
       then 7200000 else 3600000)
    (fun t =>
       if (1585443600000 + 7200000 <=? t) && (t <? 1603587600000 + 7200000)
       then 7200000 else 3600000).

(** A zone whose offset has seconds: Monrovia before 1972, 44 minutes
    and 30 seconds behind UTC. *)
Definition monrovia1970 : Zone := fixedOffset (-2670000).

End DateObject.

(** ** The date library

    Modelled from the spec: [moment] (imported at line 96) is a
    third-party library, not among the sources.  The spec names the
    display format, 'day/month/year hour:minute', and says that a text
    that does not parse gives an invalid timestamp; the rest follows the
    library.  The component calls it in three ways only:
    - [moment(ms).format(F)]  (line 131),
    - [moment().format(F)]    (line 145),
    - [moment(s, F).unix()]   (line 165),
    with [F = 'DD/MM/YYYY HH:mm'].  The module models these calls for the
    tokens that occur in [F]: formatting token by token with [zeroFill],
    and the forgiving (non-strict) parser, which looks for each token's
    pattern anywhere in what is left of the input, fills the units it
    did not find from the current date, and rejects a unit out of its
    range. *)
Module Moment.
Import DateObject.

(** The formatting tokens that occur in the component's format. *)
Inductive Token : Type :=
| DD | MM | YYYY | HH | mm
| Literal (c : ascii).

(** The format string cut into tokens, for the tokens above; any
    other character stands for itself. *)
Fixpoint tokenize (f : string) : list Token :=
  match f with
  | EmptyString => []
  | String "Y" (String "Y" (String "Y" (String "Y" r))) => YYYY :: tokenize r
  | String "D" (String "D" r) => DD :: tokenize r
  | String "M" (String "M" r) => MM :: tokenize r
  | String "H" (String "H" r) => HH :: tokenize r
  | String "m" (String "m" r) => mm :: tokenize r
  | String c r => Literal c :: tokenize r
  end.

(** *** Numbers to text *)

Definition digitChar (d : Z) : ascii := ascii_of_N (48 + Z.to_N d).

Fixpoint decimalDigits (fuel : nat) (n : Z) (acc : string) : string :=
  match fuel with
  | O => acc
  | S fuel' =>
      let acc' := String (digitChar (n mod 10)) acc in
      if n <? 10 then acc' else decimalDigits fuel' (n / 10) acc'
  end.

(** ['' + n] for a non-negative integer [n]. *)
Definition decimal (n : Z) : string :=
  decimalDigits (S (Z.to_nat (Z.log2 n))) n "".

Fixpoint zeros (k : nat) : string :=
  match k with
  | O => ""
  | S k' => String "0" (zeros k')
  end.

(** [zeroFill(number, targetLength)], without forced sign. *)
Definition zeroFill (number : Z) (targetLength : nat) : string :=
  let absNumber := decimal (Z.abs number) in
  let zerosToFill := (targetLength - String.length absNumber)%nat in
  (if 0 <=? number then "" else "-") ++ zeros zerosToFill ++ absNumber.

(** *** Text to numbers *)

Definition isDigit (c : ascii) : bool :=
  let n := N_of_ascii c in (48 <=? n)%N && (n <=? 57)%N.

Fixpoint toIntFrom (acc : Z) (s : string) : Z :=
  match s with
  | EmptyString => acc
  | String c s' => toIntFrom (10 * acc + (Z.of_N (N_of_ascii c) - 48)) s'
  end.

(** [toInt] on a run of digits. *)
Definition toInt (s : string) : Z := toIntFrom 0 s.

(** The longest run of at most [n] digits at the head of [s], and the
    rest. *)
Fixpoint takeDigits (n : nat) (s : string) : string * string :=
  match n, s with
  | S n', String c s' =>
      if isDigit c
      then let (m, r) := takeDigits n' s' in (String c m, r)
      else (EmptyString, s)
  | _, _ => (EmptyString, s)
  end.

(** First match of the pattern [\d{1,n}] in [s]: the matched text and
    what follows it (what precedes it is skipped). *)
Fixpoint matchDigits (n : nat) (s : string) : option (string * string) :=
  match s with
  | EmptyString => None
  | String c s' =>
      if isDigit c then Some (takeDigits n s) else matchDigits n s'
  end.

(** First occurrence of the literal [c] in [s]: what follows it. *)
Fixpoint matchLiteral (c : ascii) (s : string) : option string :=
  match s with
  | EmptyString => None
  | String c' s' =>
      if Ascii.eqb c c' then Some s' else matchLiteral c s'
  end.

(** The units a parse fills in ([config._a]) and the [empty] flag. *)
Record ParsedArray : Type := mkParsed {
  aYEAR : option Z;
  aMONTH : option Z;
  aDATE : option Z;
  aHOUR : option Z;
  aMINUTE : option Z;
  flagEmpty : bool
}.

Definition emptyArray : ParsedArray := mkParsed None None None None None true.

Definition parseTwoDigitYear (input : string) : Z :=
  toInt input + (if 68 <? toInt input then 1900 else 2000).

(** Largest number of digits the token's non-strict pattern takes. *)
Definition tokenDigits (tok : Token) : nat :=
  match tok with
  | YYYY => 4
  | _ => 2
  end.

Definition addTimeToArrayFromToken (tok : Token) (input : string)
    (a : ParsedArray) : ParsedArray :=
  match tok with
  | DD =>
      mkParsed (aYEAR a) (aMONTH a) (Some (toInt input)) (aHOUR a)
        (aMINUTE a) false
  | MM =>
      mkParsed (aYEAR a) (Some (toInt input - 1)) (aDATE a) (aHOUR a)
        (aMINUTE a) false
  | YYYY =>
      let y := if (String.length input =? 2)%nat
               then parseTwoDigitYear input else toInt input in
      mkParsed (Some y) (aMONTH a) (aDATE a) (aHOUR a) (aMINUTE a) false
  | HH =>
      mkParsed (aYEAR a) (aMONTH a) (aDATE a) (Some (toInt input))
        (aMINUTE a) false
  | mm =>
      mkParsed (aYEAR a) (aMONTH a) (aDATE a) (aHOUR a)
        (Some (toInt input)) false
  | Literal _ => a
  end.

(** One round of the token loop of the parser: the token's pattern is
    searched in the remaining input; on a match the input moves past
    it, otherwise the input stays and the token is left unused. *)
Definition parseToken (st : string * ParsedArray) (tok : Token)
    : string * ParsedArray :=
  let (s, a) := st in
  match tok with
  | Literal c =>
      match matchLiteral c s with
      | Some rest => (rest, a)
      | None => (s, a)
      end
  | _ =>
      match matchDigits (tokenDigits tok) s with
      | Some (input, rest) => (rest, addTimeToArrayFromToken tok input a)
      | None => (s, a)
      end
  end.

Definition parseTokens (f : string) (s : string) : ParsedArray :=
  snd (fold_left parseToken (tokenize f) (s, emptyArray)).

Definition daysInMonth (year month : Z) : Z :=
  let modMonth := month mod 12 in
  let year' := year + (month - modMonth) / 12 in
  if modMonth =? 1 then (if isLeap year' then 29 else 28)
  else 31 - ((modMonth mod 7) mod 2).

Section Local.

(** The time zone of the host; the library works in local time. *)
Variable zone : Zone.

(** A moment: the time value of a valid date, or nothing when the
    date is invalid. *)
Definition moment : Type := option Z.

(** [moment(ms)]. *)
Definition ofMillis (ms : Z) : moment := TimeClip ms.

Definition year (t : Z) : Z := YearFromTime (LocalTime zone t).
Definition month (t : Z) : Z := MonthFromTime (LocalTime zone t).
Definition date (t : Z) : Z := DateFromTime (LocalTime zone t).
Definition hours (t : Z) : Z := HourFromTime (LocalTime zone t).
Definition minutes (t : Z) : Z := MinFromTime (LocalTime zone t).

Definition formatToken (t : Z) (tok : Token) : string :=
  match tok with
  | DD => zeroFill (date t) 2
  | MM => zeroFill (month t + 1) 2
  | YYYY => zeroFill (year t) 4
  | HH => zeroFill (hours t) 2
  | mm => zeroFill (minutes t) 2
  | Literal c => String c EmptyString
  end.

(** [m.format(f)]. *)
Definition format (f : string) (m : moment) : string :=
  match m with
  | None => "Invalid date"
  | Some t => String.concat "" (map (formatToken t) (tokenize f))
  end.

(** [configFromArray]: units above the first parsed one default to
    the current date, units below to their start; the local date is
    then built from the units. *)
Definition configFromArray (now : Z) (a : ParsedArray) : Z * Z * Z * Z * Z :=
  let y := match aYEAR a with Some y => y | None => year now end in
  let m := match aYEAR a, aMONTH a with
           | _, Some m => m
           | None, None => month now
           | Some _, None => 0
           end in
  let d := match aYEAR a, aMONTH a, aDATE a with
           | _, _, Some d => d
           | None, None, None => date now
           | _, _, None => 1
           end in
  let h := match aHOUR a with Some h => h | None => 0 end in
  let mi := match aMINUTE a with Some mi => mi | None => 0 end in
  (y, m, d, h, mi).

(** [checkOverflow]: true when a unit is out of its range. *)
Definition checkOverflow (u : Z * Z * Z * Z * Z) : bool :=
  let '(y, m, d, h, mi) := u in
  if (m <? 0) || (11 <? m) then true
  else if (d <? 1) || (daysInMonth y m <? d) then true
  else if (h <? 0) || (24 <? h) || ((h =? 24) && negb (mi =? 0)) then true
  else if (mi <? 0) || (59 <? mi) then true
  else false.

Definition createLocalDate (u : Z * Z * Z * Z * Z) : option Z :=
  let '(y, m, d, h, mi) := u in
  TimeClip (UTC zone (MakeDate (MakeDay y m d) (MakeTime h mi 0 0))).

(** [moment(s, f)] at the moment [now] (which supplies the defaults
    of the units that were not parsed). *)
Definition ofString (now : Z) (s : string) (f : string) : moment :=
  let a := parseTokens f s in
  let u := configFromArray now a in
  if flagEmpty a || checkOverflow u then None else createLocalDate u.

(** [m.unix()]. *)
Definition unix (m : moment) : number :=
  match m with
  | None => NaN
  | Some t => Num (t / 1000)
  end.

End Local.

End Moment.

(** ** The records that cross the component boundary *)

(** The two-valued trade direction. *)
Inductive TradeType : Type := buy | sell.

(** The direction as the JavaScript string it is. *)
Definition tradeTypeString (t : TradeType) : string :=
  match t with
  | buy => "buy"
  | sell => "sell"
  end.

(** Modelled from the spec: the declaration of [StoredTrade] (imported at
    line 94 from [@/model/stored-trade]) is not among the sources.  The
    fields are the ones [updateFields] reads, typed as the spec's data
    model gives them: strings, a POSIX timestamp in seconds and a
    two-valued direction. *)
Module StoredTrade.
Record t : Type := mk {
  trade_id : string;
  pair : string;
  timestamp : Z;
  amount : string;
  rate : string;
  fee : string;
  fee_currency : string;
  link : string;
  notes : string;
  trade_type : TradeType
}.
End StoredTrade.

(** Modelled from the spec: the declaration of [TradePayload] (same
    import) is not among the sources.  The fields are the ones the object
    literal of [addTrade] (lines 156-168) gives; [trade_id] is [None]
    where the literal puts [undefined]. *)
Module TradePayload.
Record t : Type := mk {
  amount : string;
  fee : string;
  fee_currency : string;
  link : string;
  notes : string;
  pair : string;
  rate : string;
  location : string;
  timestamp : number;
  trade_type : string;
  trade_id : option string
}.
End TradePayload.

(** ** The component *)
Module OtcForm.

(** The instance: the two props and the ten data fields (lines
    104-118).  [type] holds the string that the radio group and the
    payload carry.

    [pendingOtcTrade] is not a field of the instance.  It stands for the
    parent's side of the [otcTrade] binding in the one situation where
    the two sides differ: a record bound when the instance is created is
    not in the prop (the initialiser of line 107 sets the prop to null)
    and waits to be handed over at the parent's next render. *)
Record state : Type := mkState {
  editMode : bool;
  otcTrade : option StoredTrade.t;
  id : string;
  pair : string;
  datetime : string;
  amount : string;
  rate : string;
  fee : string;
  feeCurrency : string;
  link : string;
  notes : string;
  type : string;
  pendingOtcTrade : option StoredTrade.t
}.

(** What [$emit] is given after the event's name. *)
Inductive EventArg : Type :=
| PayloadArg (trade : TradePayload.t)
| DomEventArg (kind : string).

Record Emitted : Type := mkEmitted {
  event : string;
  args : list EventArg
}.

(** Methods run on the instance and emit events: a state monad with an
    output of emitted events. *)
Definition M (A : Type) : Type := state -> A * state * list Emitted.

Definition ret {A : Type} (a : A) : M A := fun this => (a, this, []).

Definition bind {A B : Type} (c : M A) (k : A -> M B) : M B :=
  fun this =>
    let '(a, this1, out1) := c this in
    let '(b, this2, out2) := k a this1 in
    (b, this2, (out1 ++ out2)%list).

Definition get : M state := fun this => (this, this, []).

Definition assign (f : state -> state) : M unit :=
  fun this => (tt, f this, []).

Definition emit (name : string) (payload : list EventArg) : M unit :=
  fun this => (tt, this, [mkEmitted name payload]).

Definition stateAfter {A : Type} (c : M A) (this : state) : state :=
  snd (fst (c this)).

Definition emittedBy {A : Type} (c : M A) (this : state) : list Emitted :=
  snd (c this).

Declare Scope method_scope.
Delimit Scope method_scope with method.
Notation "x <- c ;; k" := (bind c (fun x => k))
  (at level 61, c at next level, right associativity) : method_scope.
Notation "c ;; k" := (bind c (fun _ => k))
  (at level 61, right associativity) : method_scope.
Local Open Scope method_scope.

(** Assignments [this.f = v]. *)
Definition set_editMode (v : bool) (s : state) : state :=
  mkState v (otcTrade s) (id s) (pair s) (datetime s) (amount s) (rate s)
          (fee s) (feeCurrency s) (link s) (notes s) (type s)
          (pendingOtcTrade s).
Definition set_otcTrade (v : option StoredTrade.t) (s : state) : state :=
  mkState (editMode s) v (id s) (pair s) (datetime s) (amount s) (rate s)
          (fee s) (feeCurrency s) (link s) (notes s) (type s)
          (pendingOtcTrade s).
Definition set_id (v : string) (s : state) : state :=
  mkState (editMode s) (otcTrade s) v (pair s) (datetime s) (amount s) (rate s)
          (fee s) (feeCurrency s) (link s) (notes s) (type s)
          (pendingOtcTrade s).
Definition set_pair (v : string) (s : state) : state :=
  mkState (editMode s) (otcTrade s) (id s) v (datetime s) (amount s) (rate s)
          (fee s) (feeCurrency s) (link s) (notes s) (type s)
          (pendingOtcTrade s).
Definition set_datetime (v : string) (s : state) : state :=
  mkState (editMode s) (otcTrade s) (id s) (pair s) v (amount s) (rate s)
          (fee s) (feeCurrency s) (link s) (notes s) (type s)
          (pendingOtcTrade s).
Definition set_amount (v : string) (s : state) : state :=
  mkState (editMode s) (otcTrade s) (id s) (pair s) (datetime s) v (rate s)
          (fee s) (feeCurrency s) (link s) (notes s) (type s)
          (pendingOtcTrade s).
Definition set_rate (v : string) (s : state) : state :=
  mkState (editMode s) (otcTrade s) (id s) (pair s) (datetime s) (amount s) v
          (fee s) (feeCurrency s) (link s) (notes s) (type s)
          (pendingOtcTrade s).
Definition set_fee (v : string) (s : state) : state :=
  mkState (editMode s) (otcTrade s) (id s) (pair s) (datetime s) (amount s)
          (rate s) v (feeCurrency s) (link s) (notes s) (type s)
          (pendingOtcTrade s).
Definition set_feeCurrency (v : string) (s : state) : state :=
  mkState (editMode s) (otcTrade s) (id s) (pair s) (datetime s) (amount s)
          (rate s) (fee s) v (link s) (notes s) (type s)
          (pendingOtcTrade s).
Definition set_link (v : string) (s : state) : state :=
  mkState (editMode s) (otcTrade s) (id s) (pair s) (datetime s) (amount s)
          (rate s) (fee s) (feeCurrency s) v (notes s) (type s)
          (pendingOtcTrade s).
Definition set_notes (v : string) (s : state) : state :=
  mkState (editMode s) (otcTrade s) (id s) (pair s) (datetime s) (amount s)
          (rate s) (fee s) (feeCurrency s) (link s) v (type s)
          (pendingOtcTrade s).
Definition set_type (v : string) (s : state) : state :=
  mkState (editMode s) (otcTrade s) (id s) (pair s) (datetime s) (amount s)
          (rate s) (fee s) (feeCurrency s) (link s) (notes s) v
          (pendingOtcTrade s).

Definition set_pendingOtcTrade (v : option StoredTrade.t) (s : state) : state :=
  mkState (editMode s) (otcTrade s) (id s) (pair s) (datetime s) (amount s)
          (rate s) (fee s) (feeCurrency s) (link s) (notes s) (type s) v.

(** [private static format] (line 102). *)
Definition format : string := "DD/MM/YYYY HH:mm".

(** The instance as it is created (lines 104-118), given what the parent
    binds to the two props.  [editMode] (line 105, no initialiser) holds
    what the parent passes.  [otcTrade] (line 107) has the initialiser
    [null], which runs at construction and overwrites what the parent
    passed: the prop reads null and the parent's record waits for the
    next render.  Every data field holds its initialiser.  The watcher
    of line 120 is declared without [immediate], so nothing else runs at
    creation. *)
Definition create (editMode : bool) (otcTrade : option StoredTrade.t) : state :=
  mkState editMode None "" "" "" "" "" "" "" "" "" "buy" otcTrade.

Section Host.

(** The host's time zone. *)
Variable zone : DateObject.Zone.

(** Lines 129-140. *)
Definition updateFields (trade : StoredTrade.t) : M unit :=
  assign (set_pair (StoredTrade.pair trade)) ;;
  assign (set_datetime
            (Moment.format zone format
               (Moment.ofMillis (StoredTrade.timestamp trade * 1000)))) ;;
  assign (set_amount (StoredTrade.amount trade)) ;;
  assign (set_rate (StoredTrade.rate trade)) ;;
  assign (set_fee (StoredTrade.fee trade)) ;;
  assign (set_feeCurrency (StoredTrade.fee_currency trade)) ;;
  assign (set_link (StoredTrade.link trade)) ;;
  assign (set_notes (StoredTrade.notes trade)) ;;
  assign (set_type (tradeTypeString (StoredTrade.trade_type trade))) ;;
  assign (set_id (StoredTrade.trade_id trade)).

(** Lines 142-153; [now] is the clock reading of [moment()], in
    milliseconds. *)
Definition resetFields (now : Z) : M unit :=
  assign (set_id "") ;;
  assign (set_pair "") ;;
  assign (set_datetime
            (Moment.format zone format (Moment.ofMillis now))) ;;
  assign (set_amount "") ;;
  assign (set_rate "") ;;
  assign (set_fee "") ;;
  assign (set_feeCurrency "") ;;
  assign (set_link "") ;;
  assign (set_notes "") ;;
  assign (set_type "buy").

(** Lines 120-127: the watcher of the [otcTrade] prop. *)
Definition onTradeChange (now : Z) : M unit :=
  this <- get ;;
  match otcTrade this with
  | None => resetFields now
  | Some trade => updateFields trade
  end.

(** Lines 155-171; the parser reads the clock for the units it does
    not find in the text. *)
Definition addTrade (now : Z) : M unit :=
  this <- get ;;
  let trade :=
    TradePayload.mk
      (amount this)
      (fee this)
      (feeCurrency this)
      (link this)
      (notes this)
      (pair this)
      (rate this)
      "external"
      (Moment.unix (Moment.ofString zone now (datetime this) format))
      (type this)
      (if editMode this then Some (id this) else None) in
  emit "save" [PayloadArg trade].

(** Lines 173-176.  The [Emit] decorator emits, after the body, the
    event named after the method; the body returns nothing, so the
    event carries the arguments of the call. *)
Definition cancel (now : Z) (callArgs : list EventArg) : M unit :=
  resetFields now ;;
  emit "cancel" callArgs.

(** *** What happens to an instance *)

(** The text inputs of the template (lines 13-64), bound with
    [v-model]. *)
Inductive TextField : Type :=
| Datetime | Pair | Amount | Rate | Fee | FeeCurrency | Link | Notes.

Definition set_field (f : TextField) : string -> state -> state :=
  match f with
  | Datetime => set_datetime
  | Pair => set_pair
  | Amount => set_amount
  | Rate => set_rate
  | Fee => set_fee
  | FeeCurrency => set_feeCurrency
  | Link => set_link
  | Notes => set_notes
  end.

Inductive Action : Type :=
| Input (f : TextField) (v : string)
    (* the user edits a text input *)
| SelectType (t : TradeType)
    (* the user picks a radio button (lines 25-28) *)
| SetEditMode (b : bool)
    (* the parent changes what it binds to editMode, and renders *)
| SetOtcTrade (r : option StoredTrade.t)
    (* the parent changes what it binds to otcTrade, and renders *)
| Render
    (* the parent renders again, its bindings unchanged *)
| AddTrade
| Cancel (callArgs : list EventArg).

(** A new value of the [otcTrade] prop; the watcher runs when the
    value changed (two objects are never the same value, [null] is). *)
Definition receiveOtcTrade (now : Z) (r : option StoredTrade.t) : M unit :=
  this <- get ;;
  match otcTrade this, r with
  | None, None => ret tt
  | _, _ => assign (set_otcTrade r) ;; onTradeChange now
  end.

(** A render of the parent passes both bindings again.  The instance
    sees a new value of [otcTrade] only if a record has been waiting
    since creation. *)
Definition handOver (now : Z) : M unit :=
  this <- get ;;
  match pendingOtcTrade this with
  | Some trade =>
      assign (set_pendingOtcTrade None) ;; receiveOtcTrade now (Some trade)
  | None => ret tt
  end.

Definition step (now : Z) (a : Action) : M unit :=
  match a with
  | Input f v => assign (set_field f v)
  | SelectType t => assign (set_type (tradeTypeString t))
  | SetEditMode b => assign (set_editMode b) ;; handOver now
  | SetOtcTrade r => assign (set_pendingOtcTrade None) ;; receiveOtcTrade now r
  | Render => handOver now
  | AddTrade => addTrade now
  | Cancel callArgs => cancel now callArgs
  end.

(** A history: the actions in order, each with the clock reading at
    which it happens. *)
Fixpoint run (h : list (Z * Action)) : M unit :=
  match h with
  | [] => ret tt
  | (now, a) :: h' => step now a ;; run h'
  end.

(** The actions that leave a populated form populated: everything but
    a new binding of the [otcTrade] prop and [cancel] (once no record is
    waiting from creation, a render hands nothing over). *)
Definition keepsRecord (a : Action) : bool :=
  match a with
  | SetOtcTrade _ | Cancel _ => false
  | _ => true
  end.

End Host.

(** The record of the spec's edit scenario. *)
Definition scenarioTrade : StoredTrade.t :=
  StoredTrade.mk "abc" "BTC_EUR" 1600000000 "1" "9000" "0" "EUR" "" "" buy.

End OtcForm.

(** ** The buttons of the template *)
Module OtcFormTemplate.
Import OtcForm.

(** A button of the card: its element id, its label, and what a click
    runs at a given clock reading. *)
Record Button : Type := mkButton {
  buttonId : string;
  label : string;
  onClick : Z -> M unit
}.

Section Host.

Variable zone : DateObject.Zone.

(** Lines 66-85.  The first button calls [addTrade()] (line 72) and is
    labelled after the mode (line 74).  The second is rendered in edit
    mode only (line 77); its handler is the method itself (line 81), so
    the method is handed the click event. *)
Definition cardActions (this : state) : list Button :=
  mkButton "modify_trade_settings"
    (if editMode this then "Modify Trade" else "Add  Trade")
    (fun now => addTrade zone now)
  :: (if editMode this
      then [mkButton "modify_cancel" "Cancel"
              (fun now => cancel zone now [DomEventArg "click"])]
      else []).

End Host.

End OtcFormTemplate.

(** ** What a form holds *)
Module FormStates.
Import OtcForm.




End FormStates.

(** ** Kinds of actions in a history *)
Module History.
Import OtcForm.

(** The names of the events an action makes the instance emit. *)
Definition eventsOf (a : Action) : list string :=
  match a with
  | AddTrade => ["save"]
  | Cancel _ => ["cancel"]
  | _ => []
  end.

(** The parent writes a prop. *)
Definition setsEditMode (a : Action) : bool :=
  match a with
  | SetEditMode _ => true
  | _ => false
  end.

(** The parent acts: it changes a binding or renders. *)
Definition fromParent (a : Action) : bool :=
  match a with
  | SetEditMode _ | SetOtcTrade _ | Render => true
  | _ => false
  end.


(** The parent switches edit mode on. *)
Definition entersEditMode (a : Action) : bool :=
  match a with
  | SetEditMode true => true
  | _ => false
  end.



End History.

(* ===================================================================== *)
(** * Part II: properties *)
(* ===================================================================== *)

(** ** The calendar *)
Section Calendar.
Import DateObject.

Lemma isLeap_true_iff (y : Z) :
  isLeap y = true <-> (y mod 4 = 0 /\ y mod 100 <> 0) \/ y mod 400 = 0.
Proof.
  unfold isLeap.
  rewrite orb_true_iff, andb_true_iff, negb_true_iff, !Z.eqb_eq, Z.eqb_neq.
  tauto.
Qed.

(** Consecutive years start [DaysInYear] days apart. *)
Lemma DayFromYear_succ (y : Z) :
  DayFromYear (y + 1) = DayFromYear y + DaysInYear y.
Proof.
  unfold DaysInYear.
  destruct (isLeap y) eqn:L.
  - apply isLeap_true_iff in L. unfold DayFromYear.
    Z.to_euclidean_division_equations. lia.
  - assert (N : ~ ((y mod 4 = 0 /\ y mod 100 <> 0) \/ y mod 400 = 0)).
    { rewrite <- isLeap_true_iff. congruence. }
    unfold DayFromYear.
    Z.to_euclidean_division_equations. lia.
Qed.

Lemma DaysInYear_bounds (y : Z) : 365 <= DaysInYear y <= 366.
Proof. unfold DaysInYear. destruct (isLeap y); lia. Qed.

(** The year found for a day is the year the day lies in. *)
Lemma YearFromDay_spec (d : Z) :
  DayFromYear (YearFromDay d) <= d < DayFromYear (YearFromDay d + 1).
Proof.
  unfold YearFromDay.
  set (y := 1970 + 400 * d / 146097).
  assert (Hlo : DayFromYear (y - 1) <= d).
  { unfold DayFromYear, y. Z.to_euclidean_division_equations. lia. }
  assert (Hhi : d < DayFromYear (y + 2)).
  { unfold DayFromYear, y. Z.to_euclidean_division_equations. lia. }
  destruct (Z.ltb_spec d (DayFromYear y)).
  - replace (y - 1 + 1) with y by lia. lia.
  - destruct (Z.leb_spec (DayFromYear (y + 1)) d).
    + replace (y + 1 + 1) with (y + 2) by lia. lia.
    + lia.
Qed.

Lemma DayFromYear_mono (y1 y2 : Z) :
  y1 <= y2 -> DayFromYear y1 <= DayFromYear y2.
Proof.
  intros H. unfold DayFromYear.
  Z.to_euclidean_division_equations. lia.
Qed.

(** A year is determined by any day that lies in it. *)
Lemma YearFromDay_unique (d y : Z) :
  DayFromYear y <= d < DayFromYear (y + 1) -> YearFromDay d = y.
Proof.
  intros H. pose proof (YearFromDay_spec d) as S.
  destruct (Z.lt_trichotomy (YearFromDay d) y) as [L | [E | G]]; [| exact E |].
  - pose proof (DayFromYear_mono (YearFromDay d + 1) y ltac:(lia)). lia.
  - pose proof (DayFromYear_mono (y + 1) (YearFromDay d) ltac:(lia)). lia.
Qed.

Lemma DayWithinYear_bounds (t : Z) :
  0 <= DayWithinYear t < 365 + InLeapYear t.
Proof.
  unfold DayWithinYear, InLeapYear, YearFromTime.
  pose proof (YearFromDay_spec (Day t)) as S.
  rewrite DayFromYear_succ in S. unfold DaysInYear in S.
  destruct (isLeap (YearFromDay (Day t))); lia.
Qed.

Lemma InLeapYear_cases (t : Z) : InLeapYear t = 0 \/ InLeapYear t = 1.
Proof. unfold InLeapYear. destruct (isLeap _); auto. Qed.

Lemma MonthFromTime_bounds (t : Z) : 0 <= MonthFromTime t <= 11.
Proof.
  unfold MonthFromTime.
  repeat match goal with
         | |- context [if ?b then _ else _] => destruct b
         end; lia.
Qed.

(** The library's length of a month is the distance between the starts
    of consecutive months. *)
Lemma daysInMonth_monthStart (y m : Z) :
  0 <= m <= 11 ->
  Moment.daysInMonth y m
  = monthStart (if isLeap y then 1 else 0) (m + 1)
    - monthStart (if isLeap y then 1 else 0) m.
Proof.
  intros H.
  assert (C : m = 0 \/ m = 1 \/ m = 2 \/ m = 3 \/ m = 4 \/ m = 5 \/ m = 6
              \/ m = 7 \/ m = 8 \/ m = 9 \/ m = 10 \/ m = 11) by lia.
  unfold Moment.daysInMonth.
  rewrite (Z.mod_small m 12) by lia.
  rewrite Z.sub_diag, Z.div_0_l, Z.add_0_r by lia.
  repeat (destruct C as [-> | C]); [ .. | subst m ];
    cbn; destruct (isLeap y); reflexivity.
Qed.

(** The day of the month lies within the month. *)
Lemma DateFromTime_bounds (t : Z) :
  1 <= DateFromTime t
    <= Moment.daysInMonth (YearFromTime t) (MonthFromTime t).
Proof.
  pose proof (DayWithinYear_bounds t) as B.
  rewrite daysInMonth_monthStart by apply MonthFromTime_bounds.
  change (if isLeap (YearFromTime t) then 1 else 0) with (InLeapYear t).
  unfold DateFromTime, MonthFromTime.
  destruct (InLeapYear_cases t) as [E | E]; rewrite E in *;
    repeat match goal with
           | |- context [if ?x <? ?y then _ else _] =>
               destruct (Z.ltb_spec x y)
           end; cbn; lia.
Qed.

(** Building the day back from year, month and day of the month. *)
Lemma MakeDay_of_time (t : Z) :
  MakeDay (YearFromTime t) (MonthFromTime t) (DateFromTime t) = Day t.
Proof.
  pose proof (MonthFromTime_bounds t) as B.
  unfold MakeDay.
  rewrite (Z.div_small (MonthFromTime t) 12) by lia.
  rewrite (Z.mod_small (MonthFromTime t) 12) by lia.
  rewrite Z.add_0_r.
  unfold DateFromTime, DayWithinYear, InLeapYear. lia.
Qed.

Lemma HourFromTime_bounds (t : Z) : 0 <= HourFromTime t <= 23.
Proof.
  unfold HourFromTime, HoursPerDay.
  pose proof (Z.mod_pos_bound (t / msPerHour) 24 ltac:(lia)). lia.
Qed.

Lemma MinFromTime_bounds (t : Z) : 0 <= MinFromTime t <= 59.
Proof.
  unfold MinFromTime, MinutesPerHour.
  pose proof (Z.mod_pos_bound (t / msPerMinute) 60 ltac:(lia)). lia.
Qed.

(** Day, hour and minute give the time back to the minute. *)
Lemma MakeDate_of_time (t : Z) :
  MakeDate (Day t) (MakeTime (HourFromTime t) (MinFromTime t) 0 0)
  = t - t mod msPerMinute.
Proof.
  unfold MakeDate, MakeTime, Day, HourFromTime, MinFromTime,
    msPerDay, msPerHour, msPerMinute, msPerSecond, HoursPerDay, MinutesPerHour.
  Z.to_euclidean_division_equations. lia.
Qed.

End Calendar.

(** ** Digits *)
Section Digits.
Import Moment.

Lemma forall_below (p : Z -> bool) (k : Z) :
  forallb p (map Z.of_nat (seq 0 (Z.to_nat k))) = true ->
  forall n, 0 <= n < k -> p n = true.
Proof.
  intros H n Hn. rewrite forallb_forall in H. apply H.
  apply in_map_iff. exists (Z.to_nat n). split; [lia |].
  apply in_seq. lia.
Qed.

Lemma zeroFill_2_checked :
  forallb
    (fun n =>
       match zeroFill n 2 with
       | String c1 (String c2 EmptyString) =>
           isDigit c1 && isDigit c2 && (toInt (zeroFill n 2) =? n)
       | _ => false
       end)
    (map Z.of_nat (seq 0 (Z.to_nat 100))) = true.
Proof. vm_compute. reflexivity. Qed.

(** A number below 100 is written as two digits that read back as the
    number. *)
Lemma zeroFill_2 (n : Z) :
  0 <= n < 100 ->
  exists c1 c2,
    zeroFill n 2 = String c1 (String c2 EmptyString)
    /\ isDigit c1 = true /\ isDigit c2 = true
    /\ toInt (String c1 (String c2 EmptyString)) = n.
Proof.
  intros Hn.
  pose proof (forall_below _ _ zeroFill_2_checked n Hn) as P.
  cbv beta in P.
  destruct (zeroFill n 2) as [| c1 [| c2 [| ? ?]]]; try discriminate.
  apply andb_true_iff in P as [P P3].
  apply andb_true_iff in P as [P1 P2].
  apply Z.eqb_eq in P3.
  exists c1, c2. auto.
Qed.

Lemma zeroFill_4_checked :
  forallb
    (fun n =>
       match zeroFill n 4 with
       | String c1 (String c2 (String c3 (String c4 EmptyString))) =>
           isDigit c1 && isDigit c2 && isDigit c3 && isDigit c4
           && (toInt (zeroFill n 4) =? n)
       | _ => false
       end)
    (map Z.of_nat (seq 0 (Z.to_nat 10000))) = true.
Proof. vm_compute. reflexivity. Qed.

(** A number below 10000 is written as four digits that read back as
    the number. *)
Lemma zeroFill_4 (n : Z) :
  0 <= n < 10000 ->
  exists c1 c2 c3 c4,
    zeroFill n 4 = String c1 (String c2 (String c3 (String c4 EmptyString)))
    /\ isDigit c1 = true /\ isDigit c2 = true
    /\ isDigit c3 = true /\ isDigit c4 = true
    /\ toInt (String c1 (String c2 (String c3 (String c4 EmptyString)))) = n.
Proof.
  intros Hn.
  pose proof (forall_below _ _ zeroFill_4_checked n Hn) as P.
  cbv beta in P.
  destruct (zeroFill n 4) as [| c1 [| c2 [| c3 [| c4 [| ? ?]]]]];
    try discriminate.
  apply andb_true_iff in P as [P P5].
  apply andb_true_iff in P as [P P4].
  apply andb_true_iff in P as [P P3].
  apply andb_true_iff in P as [P1 P2].
  apply Z.eqb_eq in P5.
  exists c1, c2, c3, c4. auto 10.
Qed.

(** The parser reads a text of the display format's shape unit by
    unit. *)
Lemma parseTokens_display (d1 d2 m1 m2 y1 y2 y3 y4 h1 h2 i1 i2 : ascii) :
  isDigit d1 = true -> isDigit d2 = true ->
  isDigit m1 = true -> isDigit m2 = true ->
  isDigit y1 = true -> isDigit y2 = true ->
  isDigit y3 = true -> isDigit y4 = true ->
  isDigit h1 = true -> isDigit h2 = true ->
  isDigit i1 = true -> isDigit i2 = true ->
  parseTokens OtcForm.format
    (String d1 (String d2 EmptyString) ++ "/"
     ++ String m1 (String m2 EmptyString) ++ "/"
     ++ String y1 (String y2 (String y3 (String y4 EmptyString))) ++ " "
     ++ String h1 (String h2 EmptyString) ++ ":"
     ++ String i1 (String i2 EmptyString))
  = mkParsed
      (Some (toInt (String y1 (String y2 (String y3 (String y4 EmptyString))))))
      (Some (toInt (String m1 (String m2 EmptyString)) - 1))
      (Some (toInt (String d1 (String d2 EmptyString))))
      (Some (toInt (String h1 (String h2 EmptyString))))
      (Some (toInt (String i1 (String i2 EmptyString))))
      false.
Proof.
  intros Hd1 Hd2 Hm1 Hm2 Hy1 Hy2 Hy3 Hy4 Hh1 Hh2 Hi1 Hi2.
  unfold parseTokens, OtcForm.format.
  cbn -[isDigit toInt].
  rewrite Hd1, Hd2. cbn -[isDigit toInt].
  rewrite Hm1, Hm2. cbn -[isDigit toInt].
  rewrite Hy1, Hy2, Hy3, Hy4. cbn -[isDigit toInt].
  rewrite Hh1, Hh2. cbn -[isDigit toInt].
  rewrite Hi1, Hi2. cbn -[isDigit toInt].
  reflexivity.
Qed.

End Digits.

(** ** Display text and back *)
Section RoundTrip.
Import DateObject Moment.

Variable zone : Zone.

(** The display text of a valid date, unit by unit. *)
Lemma format_display (t : Z) :
  format zone OtcForm.format (Some t)
  = zeroFill (date zone t) 2 ++ "/"
    ++ zeroFill (month zone t + 1) 2 ++ "/"
    ++ zeroFill (year zone t) 4 ++ " "
    ++ zeroFill (hours zone t) 2 ++ ":"
    ++ zeroFill (minutes zone t) 2.
Proof. reflexivity. Qed.

Lemma daysInMonth_le_31 (y m : Z) : daysInMonth y m <= 31.
Proof.
  unfold daysInMonth.
  destruct (m mod 12 =? 1).
  - destruct (isLeap _); lia.
  - pose proof (Z.mod_pos_bound ((m mod 12) mod 7) 2 ltac:(lia)). lia.
Qed.

(** While the local year has four digits, the parser recovers from the
    display text the units that were written. *)
Lemma parseTokens_format (t : Z) :
  0 <= year zone t <= 9999 ->
  parseTokens OtcForm.format (format zone OtcForm.format (Some t))
  = mkParsed (Some (year zone t)) (Some (month zone t))
             (Some (date zone t)) (Some (hours zone t))
             (Some (minutes zone t)) false.
Proof.
  intros Hy.
  rewrite format_display.
  pose proof (DateFromTime_bounds (LocalTime zone t)) as Bd.
  pose proof (daysInMonth_le_31 (YearFromTime (LocalTime zone t))
                (MonthFromTime (LocalTime zone t))) as B31.
  pose proof (MonthFromTime_bounds (LocalTime zone t)) as Bm.
  pose proof (HourFromTime_bounds (LocalTime zone t)) as Bh.
  pose proof (MinFromTime_bounds (LocalTime zone t)) as Bi.
  fold (date zone t) in Bd. fold (month zone t) in Bm.
  fold (hours zone t) in Bh. fold (minutes zone t) in Bi.
  destruct (zeroFill_2 (date zone t) ltac:(lia))
    as (d1 & d2 & -> & Hd1 & Hd2 & Ed).
  destruct (zeroFill_2 (month zone t + 1) ltac:(lia))
    as (m1 & m2 & -> & Hm1 & Hm2 & Em).
  destruct (zeroFill_4 (year zone t) ltac:(lia))
    as (y1 & y2 & y3 & y4 & -> & Hy1 & Hy2 & Hy3 & Hy4 & Ey).
  destruct (zeroFill_2 (hours zone t) ltac:(lia))
    as (h1 & h2 & -> & Hh1 & Hh2 & Eh).
  destruct (zeroFill_2 (minutes zone t) ltac:(lia))
    as (i1 & i2 & -> & Hi1 & Hi2 & Ei).
  rewrite parseTokens_display by assumption.
  rewrite Ed, Em, Ey, Eh, Ei.
  f_equal. f_equal. lia.
Qed.

(** Writing a date in the display format and reading the text back
    gives the date at the start of its local minute, while the local
    year has four digits and the host reads the local minute with the
    offset it was written with. *)
Lemma ofString_format_local (now t : Z) :
  -86400000 <= offsetAtUTC zone t <= 86400000 ->
  0 <= year zone t <= 9999 ->
  readsBack zone t ->
  ofString zone now (format zone OtcForm.format (ofMillis t)) OtcForm.format
  = Some (t - (t + offsetAtUTC zone t) mod 60000).
Proof.
  intros Hz Hy Hrb.
  pose proof (YearFromDay_spec (Day (LocalTime zone t))) as S.
  fold (YearFromTime (LocalTime zone t)) in S.
  fold (year zone t) in S.
  pose proof (DayFromYear_mono 0 (year zone t) ltac:(lia)) as M0.
  pose proof (DayFromYear_mono (year zone t + 1) 10000 ltac:(lia)) as M1.
  change (DayFromYear 0) with (-719528) in M0.
  change (DayFromYear 10000) with 2932897 in M1.
  assert (Hl : -719528 * 86400000 <= LocalTime zone t < 2932897 * 86400000).
  { unfold Day, msPerDay in S.
    Z.to_euclidean_division_equations. lia. }
  assert (El : LocalTime zone t = t + offsetAtUTC zone t) by reflexivity.
  assert (Ht : ofMillis t = Some t).
  { unfold ofMillis, TimeClip, maxTimeValue.
    destruct (Z.leb_spec (Z.abs t) 8640000000000000); [reflexivity | lia]. }
  rewrite Ht. unfold ofString.
  rewrite parseTokens_format by exact Hy.
  cbn [flagEmpty orb].
  change (configFromArray zone now _)
    with (year zone t, month zone t, date zone t,
          hours zone t, minutes zone t).
  pose proof (DateFromTime_bounds (LocalTime zone t)) as Bd.
  pose proof (MonthFromTime_bounds (LocalTime zone t)) as Bm.
  pose proof (HourFromTime_bounds (LocalTime zone t)) as Bh.
  pose proof (MinFromTime_bounds (LocalTime zone t)) as Bi.
  assert (Ov : checkOverflow
                 (year zone t, month zone t, date zone t,
                  hours zone t, minutes zone t) = false).
  { unfold checkOverflow, year, month, date, hours, minutes.
    repeat match goal with
           | |- context [?x <? ?y] => destruct (Z.ltb_spec x y); try lia
           | |- context [?x =? ?y] => destruct (Z.eqb_spec x y); try lia
           end; reflexivity. }
  rewrite Ov. unfold createLocalDate, year, month, date, hours, minutes.
  rewrite MakeDay_of_time, MakeDate_of_time.
  unfold UTC, LocalTZA. unfold readsBack in Hrb. rewrite Hrb.
  unfold TimeClip, maxTimeValue, msPerMinute. rewrite El.
  replace (t + offsetAtUTC zone t
           - (t + offsetAtUTC zone t) mod 60000
           - offsetAtUTC zone t)
    with (t - (t + offsetAtUTC zone t) mod 60000) by lia.
  destruct (Z.leb_spec (Z.abs (t - (t + offsetAtUTC zone t) mod 60000))
              8640000000000000);
    [reflexivity |].
  Z.to_euclidean_division_equations. lia.
Qed.

(** Where the offset is a whole number of minutes, that is the date to
    the minute. *)
Lemma ofString_format (now t : Z) :
  -86400000 <= offsetAtUTC zone t <= 86400000 ->
  offsetAtUTC zone t mod 60000 = 0 ->
  0 <= year zone t <= 9999 ->
  readsBack zone t ->
  ofString zone now (format zone OtcForm.format (ofMillis t)) OtcForm.format
  = Some (t - t mod 60000).
Proof.
  intros Hz Hm Hy Hrb. rewrite ofString_format_local by assumption.
  f_equal. Z.to_euclidean_division_equations. lia.
Qed.

(** In seconds: the timestamp comes back with its seconds dropped. *)
Lemma unix_ofString_format (now T : Z) :
  -86400000 <= offsetAtUTC zone (T * 1000) <= 86400000 ->
  offsetAtUTC zone (T * 1000) mod 60000 = 0 ->
  0 <= year zone (T * 1000) <= 9999 ->
  readsBack zone (T * 1000) ->
  unix (ofString zone now
          (format zone OtcForm.format (ofMillis (T * 1000)))
          OtcForm.format)
  = Num (T - T mod 60).
Proof.
  intros Hz Hm Hy Hrb. rewrite ofString_format by assumption.
  unfold unix. f_equal.
  Z.to_euclidean_division_equations. lia.
Qed.

End RoundTrip.

(** A zone whose offset never changes reads every local time back. *)
Lemma readsBack_fixedOffset (ms t : Z) :
  DateObject.readsBack (DateObject.fixedOffset ms) t.
Proof. reflexivity. Qed.

(** ** The controller *)
Section Controller.
Import DateObject OtcForm.

(** Running a method step by step. *)
Lemma stateAfter_bind {A B : Type} (c : M A) (k : A -> M B) (this : state) :
  stateAfter (bind c k) this
  = stateAfter (k (fst (fst (c this)))) (stateAfter c this).
Proof.
  unfold stateAfter, bind.
  destruct (c this) as [[a this1] out1]; cbn.
  destruct (k a this1) as [[b this2] out2]; reflexivity.
Qed.

Lemma emittedBy_bind {A B : Type} (c : M A) (k : A -> M B) (this : state) :
  emittedBy (bind c k) this
  = (emittedBy c this
     ++ emittedBy (k (fst (fst (c this)))) (stateAfter c this))%list.
Proof.
  unfold emittedBy, stateAfter, bind.
  destruct (c this) as [[a this1] out1]; cbn.
  destruct (k a this1) as [[b this2] out2]; reflexivity.
Qed.

(** [updateFields] as one assignment of the whole instance. *)
Lemma updateFields_run (zone : Zone) (trade : StoredTrade.t) (this : state) :
  updateFields zone trade this
  = (tt,
     mkState (editMode this) (otcTrade this)
       (StoredTrade.trade_id trade)
       (StoredTrade.pair trade)
       (Moment.format zone format
          (Moment.ofMillis (StoredTrade.timestamp trade * 1000)))
       (StoredTrade.amount trade)
       (StoredTrade.rate trade)
       (StoredTrade.fee trade)
       (StoredTrade.fee_currency trade)
       (StoredTrade.link trade)
       (StoredTrade.notes trade)
       (tradeTypeString (StoredTrade.trade_type trade))
       (pendingOtcTrade this),
     []).
Proof. reflexivity. Qed.

(** [resetFields] as one assignment of the whole instance. *)
Lemma resetFields_run (zone : Zone) (now : Z) (this : state) :
  resetFields zone now this
  = (tt,
     mkState (editMode this) (otcTrade this) "" ""
       (Moment.format zone format (Moment.ofMillis now))
       "" "" "" "" "" "" "buy" (pendingOtcTrade this),
     []).
Proof. reflexivity. Qed.

(** C1: when the injected record is a record [R] (not null), after the
    watcher has processed the change every field of the form holds the
    corresponding field of [R], and the date/time field holds
    [R.timestamp], taken in milliseconds, written in the display format
    'DD/MM/YYYY HH:mm'. *)
Theorem C1_fields_from_record (zone : Zone) (now : Z) (this : state)
    (R : StoredTrade.t) :
  otcTrade this = Some R ->
  let this' := stateAfter (onTradeChange zone now) this in
  pair this' = StoredTrade.pair R
  /\ amount this' = StoredTrade.amount R
  /\ rate this' = StoredTrade.rate R
  /\ fee this' = StoredTrade.fee R
  /\ feeCurrency this' = StoredTrade.fee_currency R
  /\ link this' = StoredTrade.link R
  /\ notes this' = StoredTrade.notes R
  /\ type this' = tradeTypeString (StoredTrade.trade_type R)
  /\ id this' = StoredTrade.trade_id R
  /\ datetime this'
     = Moment.format zone "DD/MM/YYYY HH:mm"
         (Moment.ofMillis (StoredTrade.timestamp R * 1000)).
Proof.
  intros H this'. subst this'.
  unfold onTradeChange. rewrite stateAfter_bind.
  change (fst (fst (get this))) with this.
  change (stateAfter get this) with this.
  rewrite H. unfold stateAfter. rewrite updateFields_run. cbn.
  repeat split; reflexivity.
Qed.

Lemma C1_fields_from_record_witness :
  let this := set_otcTrade (Some scenarioTrade) (create true None) in
  otcTrade this = Some scenarioTrade
  /\ pair (stateAfter (onTradeChange (fixedZone 0) 1600000100000) this)
     = "BTC_EUR"
  /\ datetime (stateAfter (onTradeChange (fixedZone 0) 1600000100000) this)
     = "13/09/2020 12:26".
Proof.
  pose proof (C1_fields_from_record (fixedZone 0) 1600000100000
                (set_otcTrade (Some scenarioTrade) (create true None))
                scenarioTrade eq_refl)
    as (Hp & _ & _ & _ & _ & _ & _ & _ & _ & Hd).
  cbv zeta. split; [reflexivity |]. split.
  - rewrite Hp. reflexivity.
  - rewrite Hd. vm_compute. reflexivity.
Defined.

(** What the prop and a render make of the instance. *)
Lemma receiveOtcTrade_record (zone : Zone) (now : Z) (R : StoredTrade.t)
    (this : state) :
  receiveOtcTrade zone now (Some R) this
  = updateFields zone R (set_otcTrade (Some R) this).
Proof.
  unfold receiveOtcTrade, bind, get.
  destruct (otcTrade this); reflexivity.
Qed.

Lemma receiveOtcTrade_none (zone : Zone) (now : Z) (this : state) :
  receiveOtcTrade zone now None this
  = match otcTrade this with
    | None => (tt, this, [])
    | Some _ => resetFields zone now (set_otcTrade None this)
    end.
Proof.
  unfold receiveOtcTrade, bind, get.
  destruct (otcTrade this); reflexivity.
Qed.

Lemma handOver_run (zone : Zone) (now : Z) (this : state) :
  handOver zone now this
  = match pendingOtcTrade this with
    | None => (tt, this, [])
    | Some R =>
        updateFields zone R
          (set_otcTrade (Some R) (set_pendingOtcTrade None this))
    end.
Proof.
  unfold handOver, bind, get, assign.
  destruct (pendingOtcTrade this) as [R |]; [| reflexivity].
  cbn [fst snd]. rewrite receiveOtcTrade_record.
  rewrite updateFields_run. reflexivity.
Qed.

(** What each action does to the props and to the waiting record. *)
Lemma step_SetOtcTrade (zone : Zone) (now : Z) (r : option StoredTrade.t)
    (this : state) :
  step zone now (SetOtcTrade r) this
  = receiveOtcTrade zone now r (set_pendingOtcTrade None this).
Proof.
  cbn [step]. unfold bind, assign.
  destruct (receiveOtcTrade zone now r (set_pendingOtcTrade None this))
    as [[u s1] out]. reflexivity.
Qed.

Lemma step_SetEditMode (zone : Zone) (now : Z) (b : bool) (this : state) :
  step zone now (SetEditMode b) this
  = handOver zone now (set_editMode b this).
Proof.
  cbn [step]. unfold bind, assign.
  destruct (handOver zone now (set_editMode b this)) as [[u s1] out].
  reflexivity.
Qed.





(** C7: from every state, [cancel()] (called without arguments) leaves
    every field at its create-mode default (empty strings, direction
    "buy", date/time the current moment in the display format) and emits
    exactly one event, "cancel", which carries nothing. *)
Theorem C7_cancel_resets (zone : Zone) (now : Z) (this : state) :
  let this' := stateAfter (cancel zone now []) this in
  (id this' = "" /\ pair this' = "" /\ amount this' = "" /\ rate this' = ""
   /\ fee this' = "" /\ feeCurrency this' = "" /\ link this' = ""
   /\ notes this' = ""
   /\ type this' = "buy"
   /\ datetime this'
      = Moment.format zone "DD/MM/YYYY HH:mm" (Moment.ofMillis now))
  /\ emittedBy (cancel zone now []) this = [mkEmitted "cancel" []].
Proof.
  cbv zeta. unfold cancel.
  rewrite stateAfter_bind, emittedBy_bind.
  unfold stateAfter, emittedBy. rewrite resetFields_run. cbn.
  repeat split; reflexivity.
Qed.

(** C9: from every state, [submit()] leaves every field of the form as
    it was (the props too) and emits exactly one event, "save", carrying
    the payload. *)
Theorem C9_submit_keeps_state (zone : Zone) (now : Z) (this : state) :
  stateAfter (addTrade zone now) this = this
  /\ exists trade,
       emittedBy (addTrade zone now) this
       = [mkEmitted "save" [PayloadArg trade]].
Proof.
  split; [reflexivity |]. eexists. reflexivity.
Qed.

(** C8: for every state whose date/time text does not parse under the
    display format (the library yields an invalid date), [submit()]
    still completes, leaves the form as it was and emits one "save" event
    whose payload carries as timestamp what the conversion returns for
    that text, which is NaN. *)
Theorem C8_submit_malformed_datetime (zone : Zone) (now : Z) (this : state) :
  Moment.ofString zone now (datetime this) format = None ->
  exists trade,
    addTrade zone now this
    = (tt, this, [mkEmitted "save" [PayloadArg trade]])
    /\ TradePayload.timestamp trade
       = Moment.unix
           (Moment.ofString zone now (datetime this) "DD/MM/YYYY HH:mm")
    /\ TradePayload.timestamp trade = NaN.
Proof.
  intros H. eexists. split; [reflexivity |]. cbn.
  change "DD/MM/YYYY HH:mm" with format.
  rewrite H. split; reflexivity.
Qed.

Lemma C8_submit_malformed_datetime_witness :
  let this := set_datetime "not a date" (create false None) in
  Moment.ofString (fixedZone 0) 1600000000000 (datetime this) format = None
  /\ exists trade,
       addTrade (fixedZone 0) 1600000000000 this
       = (tt, this, [mkEmitted "save" [PayloadArg trade]])
       /\ TradePayload.timestamp trade = NaN.
Proof.
  cbv zeta. split; [vm_compute; reflexivity |].
  destruct (C8_submit_malformed_datetime (fixedZone 0) 1600000000000
              (set_datetime "not a date" (create false None))
              ltac:(vm_compute; reflexivity))
    as (trade & Hrun & _ & Hnan).
  exists trade. split; assumption.
Defined.

(** Once no record is waiting, none ever is. *)
Lemma step_nothing_pending (zone : Zone) (now : Z) (a : Action)
    (this : state) :
  pendingOtcTrade this = None ->
  pendingOtcTrade (stateAfter (step zone now a) this) = None.
Proof.
  intros Hp. unfold stateAfter.
  destruct a as [f v | t | b | r | | | callArgs]; try exact Hp.
  - destruct f; exact Hp.
  - rewrite step_SetEditMode, handOver_run.
    cbn [pendingOtcTrade set_editMode]. rewrite Hp. exact Hp.
  - rewrite step_SetOtcTrade. destruct r as [R |].
    + rewrite receiveOtcTrade_record. reflexivity.
    + rewrite receiveOtcTrade_none.
      destruct (otcTrade (set_pendingOtcTrade None this)); reflexivity.
  - cbn [step]. rewrite handOver_run, Hp. exact Hp.
Qed.

(** The identifier is written by the two private methods only: the
    actions that keep a populated form populated keep it. *)
Lemma step_keeps_id (zone : Zone) (now : Z) (a : Action) (this : state) :
  pendingOtcTrade this = None ->
  keepsRecord a = true ->
  id (stateAfter (step zone now a) this) = id this.
Proof.
  intros Hp.
  destruct a as [f v | t | b | r | | | callArgs]; cbn [keepsRecord];
    try discriminate; intros _; try reflexivity.
  - destruct f; reflexivity.
  - unfold stateAfter. rewrite step_SetEditMode, handOver_run.
    cbn [pendingOtcTrade set_editMode]. rewrite Hp. reflexivity.
  - unfold stateAfter. cbn [step]. rewrite handOver_run, Hp. reflexivity.
Qed.

Lemma run_keeps_id (zone : Zone) (h : list (Z * Action)) (this : state) :
  pendingOtcTrade this = None ->
  forallb (fun x => keepsRecord (snd x)) h = true ->
  id (stateAfter (run zone h) this) = id this.
Proof.
  revert this. induction h as [| [now a] h IH]; intros this Hp H.
  - reflexivity.
  - cbn [forallb snd] in H. apply andb_true_iff in H as [Ha Hh].
    cbn [run]. rewrite stateAfter_bind.
    rewrite IH by (try apply step_nothing_pending; assumption).
    apply step_keeps_id; assumption.
Qed.

(** C2, as the code has it: the payload that [submit()] emits has an
    identifier exactly when edit mode is active: none in create mode,
    whatever the state; in edit mode the form's identifier field.  That
    field holds the identifier of the record that was applied last for
    as long as the form is not reset, however the user edits the form;
    once [cancel] or the record becoming absent has reset the form it
    holds the empty string, and the payload carries '', until a record
    is applied again (a record bound at creation and still waiting is
    applied at the next render). *)
Theorem C2_identifier_iff_edit_mode (zone : Zone) (now : Z) (this : state) :
  exists trade,
    emittedBy (addTrade zone now) this
    = [mkEmitted "save" [PayloadArg trade]]
    /\ (TradePayload.trade_id trade <> None <-> editMode this = true)
    /\ (editMode this = false -> TradePayload.trade_id trade = None)
    /\ (editMode this = true -> TradePayload.trade_id trade = Some (id this))
    /\ (forall (start : state) (now0 : Z) (R : StoredTrade.t)
               (h : list (Z * Action)),
          forallb (fun x => keepsRecord (snd x)) h = true ->
          this = stateAfter
                   (run zone ((now0, SetOtcTrade (Some R)) :: h)) start ->
          editMode this = true ->
          TradePayload.trade_id trade = Some (StoredTrade.trade_id R))
    /\ (forall (start : state) (now0 : Z) (callArgs : list EventArg)
               (h : list (Z * Action)),
          pendingOtcTrade start = None ->
          forallb (fun x => keepsRecord (snd x)) h = true ->
          this = stateAfter
                   (run zone ((now0, Cancel callArgs) :: h)) start ->
          editMode this = true ->
          TradePayload.trade_id trade = Some "")
    /\ (forall (start : state) (now0 : Z) (R : StoredTrade.t)
               (h : list (Z * Action)),
          otcTrade start = Some R ->
          forallb (fun x => keepsRecord (snd x)) h = true ->
          this = stateAfter
                   (run zone ((now0, SetOtcTrade None) :: h)) start ->
          editMode this = true ->
          TradePayload.trade_id trade = Some "").
Proof.
  eexists. split; [reflexivity |]. cbn [TradePayload.trade_id].
  split; [| split; [| split; [| split; [| split]]]].
  - destruct (editMode this); split; congruence.
  - intros ->. reflexivity.
  - intros ->. reflexivity.
  - intros start now0 R h Hh Hthis He. rewrite He. f_equal.
    rewrite Hthis. cbn [run]. rewrite stateAfter_bind.
    assert (E : stateAfter (step zone now0 (SetOtcTrade (Some R))) start
                = snd (fst (updateFields zone R
                              (set_otcTrade (Some R)
                                 (set_pendingOtcTrade None start))))).
    { unfold stateAfter.
      rewrite step_SetOtcTrade, receiveOtcTrade_record. reflexivity. }
    rewrite run_keeps_id; [| rewrite E; reflexivity | exact Hh].
    rewrite E, updateFields_run. reflexivity.
  - intros start now0 callArgs h Hp Hh Hthis He. rewrite He. f_equal.
    rewrite Hthis. cbn [run]. rewrite stateAfter_bind.
    assert (E : stateAfter (step zone now0 (Cancel callArgs)) start
                = snd (fst (resetFields zone now0 start))).
    { cbn [step]. unfold cancel. rewrite stateAfter_bind. reflexivity. }
    rewrite run_keeps_id;
      [| rewrite E, resetFields_run; exact Hp | exact Hh].
    rewrite E, resetFields_run. reflexivity.
  - intros start now0 R h Ho Hh Hthis He. rewrite He. f_equal.
    rewrite Hthis. cbn [run]. rewrite stateAfter_bind.
    assert (E : stateAfter (step zone now0 (SetOtcTrade None)) start
                = snd (fst (resetFields zone now0
                              (set_otcTrade None
                                 (set_pendingOtcTrade None start))))).
    { unfold stateAfter. rewrite step_SetOtcTrade, receiveOtcTrade_none.
      cbn [otcTrade set_pendingOtcTrade]. rewrite Ho. reflexivity. }
    rewrite run_keeps_id; [| rewrite E; reflexivity | exact Hh].
    rewrite E, resetFields_run. reflexivity.
Qed.

Lemma C2_identifier_iff_edit_mode_witness :
  let h := [(1600000200000, Input Amount "2");
            (1600000300000, SelectType sell)] in
  let edited :=
    stateAfter
      (run (fixedZone 0)
         ((1600000100000, SetOtcTrade (Some scenarioTrade)) :: h))
      (create true None) in
  let cancelled :=
    stateAfter (run (fixedZone 0) ((1600000350000, Cancel []) :: h))
      edited in
  forallb (fun x => keepsRecord (snd x)) h = true
  /\ editMode edited = true
  /\ pendingOtcTrade edited = None
  /\ editMode cancelled = true
  /\ (exists trade,
        emittedBy (addTrade (fixedZone 0) 1600000400000) edited
        = [mkEmitted "save" [PayloadArg trade]]
        /\ TradePayload.trade_id trade = Some "abc")
  /\ (exists trade,
        emittedBy (addTrade (fixedZone 0) 1600000400000) cancelled
        = [mkEmitted "save" [PayloadArg trade]]
        /\ TradePayload.trade_id trade = Some "").
Proof.
  cbv zeta. split; [reflexivity |]. split; [reflexivity |].
  split; [reflexivity |]. split; [reflexivity |]. split.
  - destruct (C2_identifier_iff_edit_mode (fixedZone 0) 1600000400000
                (stateAfter
                   (run (fixedZone 0)
                      [(1600000100000, SetOtcTrade (Some scenarioTrade));
                       (1600000200000, Input Amount "2");
                       (1600000300000, SelectType sell)])
                   (create true None)))
      as (trade & Hsave & _ & _ & _ & Hlast & _).
    exists trade. split; [exact Hsave |].
    exact (Hlast (create true None) 1600000100000 scenarioTrade
             [(1600000200000, Input Amount "2");
              (1600000300000, SelectType sell)]
             eq_refl eq_refl eq_refl).
  - destruct (C2_identifier_iff_edit_mode (fixedZone 0) 1600000400000
                (stateAfter
                   (run (fixedZone 0)
                      [(1600000350000, Cancel []);
                       (1600000200000, Input Amount "2");
                       (1600000300000, SelectType sell)])
                   (stateAfter
                      (run (fixedZone 0)
                         [(1600000100000, SetOtcTrade (Some scenarioTrade));
                          (1600000200000, Input Amount "2");
                          (1600000300000, SelectType sell)])
                      (create true None))))
      as (trade & Hsave & _ & _ & _ & _ & Hreset & _).
    exists trade. split; [exact Hsave |].
    exact (Hreset
             (stateAfter
                (run (fixedZone 0)
                   [(1600000100000, SetOtcTrade (Some scenarioTrade));
                    (1600000200000, Input Amount "2");
                    (1600000300000, SelectType sell)])
                (create true None))
             1600000350000 []
             [(1600000200000, Input Amount "2");
              (1600000300000, SelectType sell)]
             eq_refl eq_refl eq_refl eq_refl).
Defined.

(** C2 as stated fails: in edit mode, after the scenario's record has
    been applied and [cancel()] called, the payload does not carry the
    identifier of the most recently applied record. *)
Lemma C2_counterexample :
  ~ exists trade,
      editMode
        (stateAfter
           (run (fixedZone 0)
              [(1600000100000, SetOtcTrade (Some scenarioTrade));
               (1600000200000, Cancel [])])
           (create true None)) = true
      /\ emittedBy (addTrade (fixedZone 0) 1600000300000)
           (stateAfter
              (run (fixedZone 0)
                 [(1600000100000, SetOtcTrade (Some scenarioTrade));
                  (1600000200000, Cancel [])])
              (create true None))
         = [mkEmitted "save" [PayloadArg trade]]
      /\ TradePayload.trade_id trade
         = Some (StoredTrade.trade_id scenarioTrade).
Proof.
  intros (trade & _ & Hsave & Hid).
  vm_compute in Hsave.
  injection Hsave as Htrade. subst trade.
  cbn in Hid. discriminate Hid.
Qed.

(** The scenario's timestamp lies in 2020 wherever the offset is at most
    a day. *)
Lemma year_scenario (zone : Zone) :
  -86400000 <= offsetAtUTC zone (1600000000 * 1000) <= 86400000 ->
  Moment.year zone (1600000000 * 1000) = 2020.
Proof.
  intros H. unfold Moment.year, YearFromTime.
  apply YearFromDay_unique.
  change (DayFromYear 2020) with 18262.
  change (DayFromYear (2020 + 1)) with 18628.
  unfold Day, LocalTime, LocalTZA, msPerDay.
  Z.to_euclidean_division_equations. lia.
Qed.

(** C3, as the code has it: with the scenario's record injected in edit
    mode and the change processed, the fields hold the record's values
    and the date/time field its timestamp in display format; [submit()]
    without further edits then emits a payload with trade_id "abc", the
    record's other fields unchanged, the location "external", and the
    timestamp 1599999960: the record's 1600000000 without its 40 seconds,
    which the display format does not show.  (In every time zone that is
    at most a day from UTC by a whole number of minutes and reads that
    local minute back with the offset it was written with.) *)
Theorem C3_edit_scenario (zone : Zone) (now1 now2 : Z) :
  -86400000 <= offsetAtUTC zone (1600000000 * 1000) <= 86400000 ->
  offsetAtUTC zone (1600000000 * 1000) mod 60000 = 0 ->
  readsBack zone (1600000000 * 1000) ->
  let this :=
    stateAfter (step zone now1 (SetOtcTrade (Some scenarioTrade)))
      (create true None) in
  (id this = "abc" /\ pair this = "BTC_EUR" /\ amount this = "1"
   /\ rate this = "9000" /\ fee this = "0" /\ feeCurrency this = "EUR"
   /\ link this = "" /\ notes this = "" /\ type this = "buy"
   /\ datetime this
      = Moment.format zone "DD/MM/YYYY HH:mm"
          (Moment.ofMillis (1600000000 * 1000)))
  /\ addTrade zone now2 this
     = (tt, this,
        [mkEmitted "save"
           [PayloadArg
              (TradePayload.mk "1" "0" "EUR" "" "" "BTC_EUR" "9000"
                 "external" (Num 1599999960) "buy" (Some "abc"))]]).
Proof.
  intros H Hm Hrb this.
  assert (E : this
              = mkState true (Some scenarioTrade) "abc" "BTC_EUR"
                  (Moment.format zone format
                     (Moment.ofMillis (1600000000 * 1000)))
                  "1" "9000" "0" "EUR" "" "" "buy" None) by reflexivity.
  clearbody this. subst this. split.
  - cbn [id pair amount rate fee feeCurrency link notes type datetime].
    repeat split; reflexivity.
  - unfold addTrade, bind, get, emit.
    cbn [id pair amount rate fee feeCurrency link notes type datetime
         editMode app].
    rewrite unix_ofString_format
      by (try rewrite year_scenario by exact H;
          try exact Hrb; try exact Hm; lia).
    reflexivity.
Qed.

Lemma C3_edit_scenario_witness :
  -86400000 <= offsetAtUTC centralEurope2020 (1600000000 * 1000) <= 86400000
  /\ offsetAtUTC centralEurope2020 (1600000000 * 1000) mod 60000 = 0
  /\ readsBack centralEurope2020 (1600000000 * 1000)
  /\ exists this,
       this = stateAfter
                (step centralEurope2020 1600000100000
                   (SetOtcTrade (Some scenarioTrade)))
                (create true None)
       /\ datetime this = "13/09/2020 14:26"
       /\ emittedBy (addTrade centralEurope2020 1600000200000) this
          = [mkEmitted "save"
               [PayloadArg
                  (TradePayload.mk "1" "0" "EUR" "" "" "BTC_EUR" "9000"
                     "external" (Num 1599999960) "buy" (Some "abc"))]].
Proof.
  assert (Hz : -86400000 <= offsetAtUTC centralEurope2020 (1600000000 * 1000)
               <= 86400000) by (vm_compute; split; discriminate).
  assert (Hm : offsetAtUTC centralEurope2020 (1600000000 * 1000) mod 60000
               = 0) by (vm_compute; reflexivity).
  assert (Hrb : readsBack centralEurope2020 (1600000000 * 1000))
    by (vm_compute; reflexivity).
  split; [exact Hz |]. split; [exact Hm |]. split; [exact Hrb |].
  destruct (C3_edit_scenario centralEurope2020 1600000100000 1600000200000
              Hz Hm Hrb)
    as [(_ & _ & _ & _ & _ & _ & _ & _ & _ & Hd) Hrun].
  eexists. split; [reflexivity |]. split.
  - rewrite Hd. vm_compute. reflexivity.
  - unfold emittedBy. rewrite Hrun. reflexivity.
Defined.

(** C3 as stated fails: in the scenario, at UTC, the emitted payload does
    not carry the timestamp 1600000000. *)
Lemma C3_counterexample :
  ~ exists trade,
      emittedBy (addTrade (fixedZone 0) 1600000200000)
        (stateAfter
           (step (fixedZone 0) 1600000100000
              (SetOtcTrade (Some scenarioTrade)))
           (create true None))
      = [mkEmitted "save" [PayloadArg trade]]
      /\ TradePayload.trade_id trade = Some "abc"
      /\ TradePayload.timestamp trade = Num 1600000000.
Proof.
  intros (trade & Hsave & _ & Hts).
  vm_compute in Hsave.
  injection Hsave as Htrade. subst trade.
  cbn in Hts. discriminate Hts.
Qed.

(** C4, as the code has it: for every timestamp [T] in seconds whose
    local year is between 0 and 9999, on a host whose offset from UTC at
    [T] is a whole number of minutes, at most a day, and which reads the
    local minute of [T] back with that offset (every zone whose offset
    does not change does), writing [T * 1000] milliseconds in the
    display format 'DD/MM/YYYY HH:mm' and reading the text back under
    the same format gives the unix timestamp [T] without its seconds. *)
Theorem C4_display_round_trip (zone : Zone) (now T : Z) :
  -86400000 <= offsetAtUTC zone (T * 1000) <= 86400000 ->
  offsetAtUTC zone (T * 1000) mod 60000 = 0 ->
  0 <= Moment.year zone (T * 1000) <= 9999 ->
  readsBack zone (T * 1000) ->
  Moment.unix
    (Moment.ofString zone now
       (Moment.format zone "DD/MM/YYYY HH:mm" (Moment.ofMillis (T * 1000)))
       "DD/MM/YYYY HH:mm")
  = Num (T - T mod 60).
Proof.
  intros Hz Hm Hy Hrb.
  exact (unix_ofString_format zone now T Hz Hm Hy Hrb).
Qed.

Lemma C4_display_round_trip_witness :
  -86400000 <= offsetAtUTC (fixedZone (-300)) (1600000000 * 1000) <= 86400000
  /\ offsetAtUTC (fixedZone (-300)) (1600000000 * 1000) mod 60000 = 0
  /\ 0 <= Moment.year (fixedZone (-300)) (1600000000 * 1000) <= 9999
  /\ readsBack (fixedZone (-300)) (1600000000 * 1000)
  /\ Moment.format (fixedZone (-300)) "DD/MM/YYYY HH:mm"
       (Moment.ofMillis (1600000000 * 1000)) = "13/09/2020 07:26"
  /\ Moment.unix
       (Moment.ofString (fixedZone (-300)) 0 "13/09/2020 07:26"
          "DD/MM/YYYY HH:mm")
     = Num 1599999960.
Proof.
  assert (Hz : -86400000 <= offsetAtUTC (fixedZone (-300)) (1600000000 * 1000)
               <= 86400000) by (vm_compute; split; discriminate).
  assert (Hm : offsetAtUTC (fixedZone (-300)) (1600000000 * 1000) mod 60000
               = 0) by (vm_compute; reflexivity).
  assert (Hy : 0 <= Moment.year (fixedZone (-300)) (1600000000 * 1000)
               <= 9999)
    by (vm_compute; split; discriminate).
  assert (Hrb : readsBack (fixedZone (-300)) (1600000000 * 1000))
    by reflexivity.
  pose proof (C4_display_round_trip (fixedZone (-300)) 0 1600000000
                Hz Hm Hy Hrb) as H.
  assert (Hf : Moment.format (fixedZone (-300)) "DD/MM/YYYY HH:mm"
                 (Moment.ofMillis (1600000000 * 1000)) = "13/09/2020 07:26")
    by (vm_compute; reflexivity).
  rewrite Hf in H.
  split; [exact Hz |]. split; [exact Hm |]. split; [exact Hy |].
  split; [exact Hrb |]. split; [exact Hf |].
  exact H.
Defined.

(** C4 as stated fails: where clocks are set back, two timestamps an
    hour apart are written as the same text.  In central Europe
    1603589400 (25 October 2020, 01:30 UTC, after the change) is written
    "25/10/2020 02:30" and read back as 1603585800, the first 02:30 of
    that night. *)
Lemma C4_counterexample :
  Moment.unix
    (Moment.ofString centralEurope2020 0
       (Moment.format centralEurope2020 "DD/MM/YYYY HH:mm"
          (Moment.ofMillis (1603589400 * 1000)))
       "DD/MM/YYYY HH:mm")
  <> Num (1603589400 - 1603589400 mod 60).
Proof. vm_compute. discriminate. Qed.

(** The two timestamps of that night have one display text. *)
Lemma format_repeated_hour :
  Moment.format centralEurope2020 "DD/MM/YYYY HH:mm"
    (Moment.ofMillis (1603585800 * 1000))
  = Moment.format centralEurope2020 "DD/MM/YYYY HH:mm"
      (Moment.ofMillis (1603589400 * 1000)).
Proof. vm_compute. reflexivity. Qed.

(** The year is written with as many digits as it has and read with four
    at most: the first second of the year 10000, at UTC, does not come
    back either. *)
Lemma round_trip_year_10000 :
  Moment.format (fixedZone 0) "DD/MM/YYYY HH:mm"
    (Moment.ofMillis (253402300800 * 1000)) = "01/01/10000 00:00"
  /\ Moment.unix
       (Moment.ofString (fixedZone 0) 0 "01/01/10000 00:00" "DD/MM/YYYY HH:mm")
     = Num (-30610224000).
Proof. split; vm_compute; reflexivity. Qed.

(** Where the offset has seconds, the text comes back at the start of
    the local minute, which is not a whole minute of unix time: in
    Monrovia before 1972 the epoch itself is written "31/12/1969 23:15"
    and read back as 30 seconds before the epoch. *)
Lemma round_trip_offset_with_seconds :
  Moment.format monrovia1970 "DD/MM/YYYY HH:mm" (Moment.ofMillis (0 * 1000))
  = "31/12/1969 23:15"
  /\ Moment.unix
       (Moment.ofString monrovia1970 0 "31/12/1969 23:15" "DD/MM/YYYY HH:mm")
     = Num (-30).
Proof. split; vm_compute; reflexivity. Qed.

(** What the user, [submit()] and [cancel()] do leaves the props and the
    waiting record alone. *)
Lemma step_without_parent (zone : Zone) (now : Z) (a : Action)
    (this : state) :
  History.fromParent a = false ->
  let this' := stateAfter (step zone now a) this in
  editMode this' = editMode this
  /\ otcTrade this' = otcTrade this
  /\ pendingOtcTrade this' = pendingOtcTrade this.
Proof.
  destruct a as [f v | t | b | r | | | callArgs]; cbn [History.fromParent];
    try discriminate; intros _; cbv zeta.
  - destruct f; repeat split; reflexivity.
  - repeat split; reflexivity.
  - repeat split; reflexivity.
  - cbn [step]. unfold cancel. rewrite stateAfter_bind.
    change (stateAfter (emit "cancel" callArgs) ?s) with s.
    unfold stateAfter. rewrite resetFields_run. repeat split; reflexivity.
Qed.

Lemma run_without_parent (zone : Zone) (h : list (Z * Action))
    (this : state) :
  forallb (fun x => negb (History.fromParent (snd x))) h = true ->
  let this' := stateAfter (run zone h) this in
  editMode this' = editMode this
  /\ otcTrade this' = otcTrade this
  /\ pendingOtcTrade this' = pendingOtcTrade this.
Proof.
  revert this. induction h as [| [now a] h IH]; intros this H; cbv zeta.
  - repeat split; reflexivity.
  - cbn [forallb snd] in H. apply andb_true_iff in H as [Ha Hh].
    apply negb_true_iff in Ha.
    cbn [run]. rewrite stateAfter_bind.
    destruct (IH (stateAfter (step zone now a) this) Hh) as (E1 & E2 & E3).
    destruct (step_without_parent zone now a this Ha) as (F1 & F2 & F3).
    rewrite E1, E2, E3. auto.
Qed.






(** Prop changes and renders emit nothing. *)
Lemma receiveOtcTrade_emits (zone : Zone) (now : Z)
    (r : option StoredTrade.t) (this : state) :
  emittedBy (receiveOtcTrade zone now r) this = [].
Proof.
  unfold emittedBy. destruct r as [R |].
  - rewrite receiveOtcTrade_record. reflexivity.
  - rewrite receiveOtcTrade_none. destruct (otcTrade this); reflexivity.
Qed.

Lemma handOver_emits (zone : Zone) (now : Z) (this : state) :
  emittedBy (handOver zone now) this = [].
Proof.
  unfold emittedBy. rewrite handOver_run.
  destruct (pendingOtcTrade this); reflexivity.
Qed.

Lemma step_parent_emits (zone : Zone) (now : Z) (a : Action) (this : state) :
  History.fromParent a = true ->
  emittedBy (step zone now a) this = [].
Proof.
  destruct a as [f v | t | b | r | | | callArgs]; cbn [History.fromParent];
    try discriminate; intros _.
  - unfold emittedBy. rewrite step_SetEditMode. apply handOver_emits.
  - unfold emittedBy. rewrite step_SetOtcTrade. apply receiveOtcTrade_emits.
  - apply handOver_emits.
Qed.

Lemma handOver_direction (zone : Zone) (now : Z) (this : state) :
  type this = "buy" \/ type this = "sell" ->
  type (stateAfter (handOver zone now) this) = "buy"
  \/ type (stateAfter (handOver zone now) this) = "sell".
Proof.
  intros Inv. unfold stateAfter. rewrite handOver_run.
  destruct (pendingOtcTrade this) as [R |]; [| exact Inv].
  rewrite updateFields_run. cbn.
  destruct (StoredTrade.trade_type R); cbn; auto.
Qed.

(** The direction is "buy" or "sell" after every action, if it was
    before, and a payload emitted from such a state has such a direction. *)
Lemma step_direction (zone : Zone) (now : Z) (a : Action) (this : state) :
  type this = "buy" \/ type this = "sell" ->
  (let this' := stateAfter (step zone now a) this in
   type this' = "buy" \/ type this' = "sell")
  /\ forall trade,
       In (mkEmitted "save" [PayloadArg trade])
          (emittedBy (step zone now a) this) ->
       TradePayload.trade_type trade = "buy"
       \/ TradePayload.trade_type trade = "sell".
Proof.
  intros Inv. cbv zeta.
  destruct a as [f v | t | b | r | | | callArgs].
  - split; [destruct f; exact Inv | intros trade []].
  - split; [destruct t; cbn; auto | intros trade []].
  - split.
    + unfold stateAfter. rewrite step_SetEditMode.
      apply (handOver_direction zone now (set_editMode b this)). exact Inv.
    + intros trade Hin.
      rewrite step_parent_emits in Hin by reflexivity. destruct Hin.
  - split.
    + unfold stateAfter. rewrite step_SetOtcTrade. destruct r as [R |].
      * rewrite receiveOtcTrade_record, updateFields_run.
        cbn. destruct (StoredTrade.trade_type R); cbn; auto.
      * rewrite receiveOtcTrade_none.
        destruct (otcTrade (set_pendingOtcTrade None this)); cbn; auto.
    + intros trade Hin.
      rewrite step_parent_emits in Hin by reflexivity. destruct Hin.
  - split.
    + cbn [step]. apply handOver_direction. exact Inv.
    + intros trade Hin.
      rewrite step_parent_emits in Hin by reflexivity. destruct Hin.
  - split; [exact Inv |].
    intros trade [Hin | []]. injection Hin as <-. exact Inv.
  - split; [cbn; auto |].
    intros trade [Hin | []]. discriminate Hin.
Qed.

Lemma run_direction (zone : Zone) (h : list (Z * Action)) (this : state) :
  type this = "buy" \/ type this = "sell" ->
  (let this' := stateAfter (run zone h) this in
   type this' = "buy" \/ type this' = "sell")
  /\ forall trade,
       In (mkEmitted "save" [PayloadArg trade])
          (emittedBy (run zone h) this) ->
       TradePayload.trade_type trade = "buy"
       \/ TradePayload.trade_type trade = "sell".
Proof.
  revert this. induction h as [| [now a] h IH]; intros this Inv; cbv zeta.
  - split; [exact Inv | intros trade []].
  - cbn [run]. rewrite stateAfter_bind, emittedBy_bind.
    destruct (step_direction zone now a this Inv) as [Inv1 Out1].
    destruct (IH _ Inv1) as [Inv2 Out2].
    split; [exact Inv2 |].
    intros trade Hin. apply in_app_or in Hin as [Hin | Hin].
    + exact (Out1 trade Hin).
    + exact (Out2 trade Hin).
Qed.

(** C10: the direction field is "buy" or "sell" throughout the life of
    an instance: it is created "buy", [resetFields] sets it to "buy",
    [updateFields] copies the record's two-valued direction, and after
    any history of edits, prop changes, submits and cancels it is one of
    the two; so is the direction of every payload emitted on the way. *)
Theorem C10_direction_buy_or_sell (zone : Zone) (editMode0 : bool)
    (record : option StoredTrade.t) (h : list (Z * Action)) :
  type (create editMode0 record) = "buy"
  /\ (forall now this,
        type (stateAfter (resetFields zone now) this) = "buy")
  /\ (forall R this,
        type (stateAfter (updateFields zone R) this)
        = tradeTypeString (StoredTrade.trade_type R)
        /\ (tradeTypeString (StoredTrade.trade_type R) = "buy"
            \/ tradeTypeString (StoredTrade.trade_type R) = "sell"))
  /\ (let this' := stateAfter (run zone h) (create editMode0 record) in
      type this' = "buy" \/ type this' = "sell")
  /\ forall trade,
       In (mkEmitted "save" [PayloadArg trade])
          (emittedBy (run zone h) (create editMode0 record)) ->
       TradePayload.trade_type trade = "buy"
       \/ TradePayload.trade_type trade = "sell".
Proof.
  split; [reflexivity |]. split; [reflexivity |]. split.
  - intros R this. split; [reflexivity |].
    destruct (StoredTrade.trade_type R); cbn; auto.
  - apply run_direction. left. reflexivity.
Qed.

Lemma C10_direction_buy_or_sell_witness :
  let h := [(1600000100000, Input Pair "ETH_EUR");
            (1600000200000, SelectType sell);
            (1600000300000, AddTrade);
            (1600000400000, Cancel [])] in
  exists trade,
    In (mkEmitted "save" [PayloadArg trade])
       (emittedBy (run (fixedZone 0) h) (create false None))
    /\ TradePayload.trade_type trade = "sell"
    /\ type (stateAfter (run (fixedZone 0) h) (create false None)) = "buy".
Proof.
  cbv zeta.
  destruct (C10_direction_buy_or_sell (fixedZone 0) false None
              [(1600000100000, Input Pair "ETH_EUR");
               (1600000200000, SelectType sell);
               (1600000300000, AddTrade);
               (1600000400000, Cancel [])])
    as (_ & _ & _ & _ & Hout).
  eexists. split; [left; reflexivity |].
  split; [| reflexivity].
  match goal with
  | |- TradePayload.trade_type ?t = _ =>
      destruct (Hout t (or_introl eq_refl)) as [Hb | Hs];
        [discriminate Hb | exact Hs]
  end.
Defined.

End Controller.

(** ** The controller over whole histories *)
Section Histories.
Import DateObject OtcForm OtcFormTemplate History.

Lemma stateAfter_run_app (zone : Zone) (h1 h2 : list (Z * Action))
    (this : state) :
  stateAfter (run zone (h1 ++ h2)) this
  = stateAfter (run zone h2) (stateAfter (run zone h1) this).
Proof.
  revert this. induction h1 as [| [now a] h1 IH]; intros this.
  - reflexivity.
  - cbn [app run]. rewrite !stateAfter_bind. apply IH.
Qed.

Lemma handOver_editMode (zone : Zone) (now : Z) (this : state) :
  editMode (stateAfter (handOver zone now) this) = editMode this.
Proof.
  unfold stateAfter. rewrite handOver_run.
  destruct (pendingOtcTrade this); reflexivity.
Qed.

Lemma step_editMode (zone : Zone) (now : Z) (a : Action) (this : state) :
  setsEditMode a = false ->
  editMode (stateAfter (step zone now a) this) = editMode this.
Proof.
  destruct a as [f v | t | b | r | | | callArgs]; cbn [setsEditMode];
    try discriminate; intros _; try reflexivity.
  - destruct f; reflexivity.
  - unfold stateAfter. rewrite step_SetOtcTrade. destruct r as [R |].
    + rewrite receiveOtcTrade_record. reflexivity.
    + rewrite receiveOtcTrade_none.
      destruct (otcTrade (set_pendingOtcTrade None this)); reflexivity.
  - cbn [step]. apply handOver_editMode.
Qed.

Lemma run_editMode (zone : Zone) (h : list (Z * Action)) (this : state) :
  forallb (fun x => negb (setsEditMode (snd x))) h = true ->
  editMode (stateAfter (run zone h) this) = editMode this.
Proof.
  revert this. induction h as [| [now a] h IH]; intros this H.
  - reflexivity.
  - cbn [forallb snd] in H. apply andb_true_iff in H as [Ha Hh].
    apply negb_true_iff in Ha.
    cbn [run]. rewrite stateAfter_bind, IH by exact Hh.
    apply step_editMode, Ha.
Qed.

(** X6: after construction, where the initialiser of line 107 sets the
    [otcTrade] prop to null whatever the parent bound, the component
    does not write its props: over any history in which the parent does
    not act, whatever the user edits and however often the form is
    submitted or cancelled, [editMode] and [otcTrade] stay what they
    were. *)
Theorem props_kept_by_component (zone : Zone) (h : list (Z * Action))
    (this : state) :
  forallb (fun x => negb (fromParent (snd x))) h = true ->
  (forall editMode0 record, otcTrade (create editMode0 record) = None)
  /\ editMode (stateAfter (run zone h) this) = editMode this
  /\ otcTrade (stateAfter (run zone h) this) = otcTrade this.
Proof.
  intros H. split; [reflexivity |].
  destruct (run_without_parent zone h this H) as (He & Ho & _).
  split; assumption.
Qed.

Lemma props_kept_by_component_witness :
  let h := [(1600000100000, Input Notes "paid in cash");
            (1600000200000, AddTrade);
            (1600000300000, Cancel [DomEventArg "click"]);
            (1600000400000, SelectType sell)] in
  let this := set_otcTrade (Some scenarioTrade) (create true None) in
  forallb (fun x => negb (fromParent (snd x))) h = true
  /\ editMode (stateAfter (run (fixedZone 0) h) this) = true
  /\ otcTrade (stateAfter (run (fixedZone 0) h) this) = Some scenarioTrade.
Proof.
  cbv zeta. split; [reflexivity |].
  exact (proj2 (props_kept_by_component (fixedZone 0)
                  [(1600000100000, Input Notes "paid in cash");
                   (1600000200000, AddTrade);
                   (1600000300000, Cancel [DomEventArg "click"]);
                   (1600000400000, SelectType sell)]
                  (set_otcTrade (Some scenarioTrade) (create true None))
                  eq_refl)).
Defined.

Lemma step_events (zone : Zone) (now : Z) (a : Action) (this : state) :
  map event (emittedBy (step zone now a) this) = eventsOf a.
Proof.
  destruct a as [f v | t | b | r | | | callArgs]; try reflexivity;
    rewrite step_parent_emits by reflexivity; reflexivity.
Qed.

(** X5: over any history the instance emits one "save" for each call of
    [addTrade] and one "cancel" for each call of [cancel], in the order
    of the calls, and nothing else: edits and prop changes (the watcher
    included) emit nothing. *)
Theorem events_follow_calls (zone : Zone) (h : list (Z * Action))
    (this : state) :
  map event (emittedBy (run zone h) this)
  = flat_map (fun x => eventsOf (snd x)) h.
Proof.
  revert this. induction h as [| [now a] h IH]; intros this.
  - reflexivity.
  - cbn [run flat_map snd]. rewrite emittedBy_bind, map_app.
    rewrite step_events, IH. reflexivity.
Qed.

Lemma step_create_mode (zone : Zone) (now : Z) (a : Action) (this : state) :
  editMode this = false ->
  entersEditMode a = false ->
  editMode (stateAfter (step zone now a) this) = false
  /\ forall trade,
       In (mkEmitted "save" [PayloadArg trade])
          (emittedBy (step zone now a) this) ->
       TradePayload.trade_id trade = None.
Proof.
  intros He Ha.
  destruct a as [f v | t | b | r | | | callArgs].
  - split; [destruct f; exact He | intros trade []].
  - split; [exact He | intros trade []].
  - destruct b; [discriminate Ha |]. split.
    + unfold stateAfter. rewrite step_SetEditMode.
      apply (handOver_editMode zone now (set_editMode false this)).
    + intros trade Hin.
      rewrite step_parent_emits in Hin by reflexivity. destruct Hin.
  - split.
    + rewrite step_editMode by reflexivity. exact He.
    + intros trade Hin.
      rewrite step_parent_emits in Hin by reflexivity. destruct Hin.
  - split.
    + rewrite step_editMode by reflexivity. exact He.
    + intros trade Hin.
      rewrite step_parent_emits in Hin by reflexivity. destruct Hin.
  - split; [exact He |].
    intros trade [Hin | []]. injection Hin as <-.
    cbn [TradePayload.trade_id]. rewrite He. reflexivity.
  - split; [exact He |].
    intros trade [Hin | []]. discriminate Hin.
Qed.

(** X7: an instance in create mode never sends an identifier: as long
    as the parent does not switch edit mode on, every "save" payload of a
    history has no [trade_id], also after a record has been injected and
    its identifier copied into the form. *)
Theorem create_mode_never_sends_identifier (zone : Zone)
    (h : list (Z * Action)) (this : state) :
  editMode this = false ->
  forallb (fun x => negb (entersEditMode (snd x))) h = true ->
  forall trade,
    In (mkEmitted "save" [PayloadArg trade]) (emittedBy (run zone h) this) ->
    TradePayload.trade_id trade = None.
Proof.
  revert this. induction h as [| [now a] h IH]; intros this He H trade Hin.
  - destruct Hin.
  - cbn [forallb snd] in H. apply andb_true_iff in H as [Ha Hh].
    apply negb_true_iff in Ha.
    destruct (step_create_mode zone now a this He Ha) as [He1 Hout].
    cbn [run] in Hin. rewrite emittedBy_bind in Hin.
    apply in_app_or in Hin as [Hin | Hin].
    + exact (Hout trade Hin).
    + exact (IH _ He1 Hh trade Hin).
Qed.

Lemma create_mode_never_sends_identifier_witness :
  let h := [(1600000100000, SetOtcTrade (Some scenarioTrade));
            (1600000200000, SetEditMode false);
            (1600000300000, AddTrade)] in
  editMode (create false None) = false
  /\ forallb (fun x => negb (entersEditMode (snd x))) h = true
  /\ id (stateAfter (run (fixedZone 0) h) (create false None)) = "abc"
  /\ exists trade,
       emittedBy (run (fixedZone 0) h) (create false None)
       = [mkEmitted "save" [PayloadArg trade]]
       /\ TradePayload.trade_id trade = None.
Proof.
  cbv zeta. split; [reflexivity |]. split; [reflexivity |].
  split; [vm_compute; reflexivity |].
  assert (E : emittedBy
                (run (fixedZone 0)
                   [(1600000100000, SetOtcTrade (Some scenarioTrade));
                    (1600000200000, SetEditMode false);
                    (1600000300000, AddTrade)])
                (create false None)
              = [mkEmitted "save"
                   [PayloadArg
                      (TradePayload.mk "1" "0" "EUR" "" "" "BTC_EUR" "9000"
                         "external" (Num 1599999960) "buy" None)]])
    by (vm_compute; reflexivity).
  eexists. split; [exact E |].
  apply (create_mode_never_sends_identifier (fixedZone 0)
           [(1600000100000, SetOtcTrade (Some scenarioTrade));
            (1600000200000, SetEditMode false);
            (1600000300000, AddTrade)]
           (create false None) eq_refl eq_refl).
  rewrite E. left. reflexivity.
Defined.

(** X8: a record that arrives replaces everything: whatever the user
    edited and whichever records, submits and cancels came before, once
    the prop changes to a record the instance is in the state it would
    be in had the record arrived first (the parent leaving [editMode]
    alone): no field keeps an older value. *)
Theorem last_record_wins (zone : Zone) (h : list (Z * Action)) (now : Z)
    (this : state) (R : StoredTrade.t) :
  forallb (fun x => negb (setsEditMode (snd x))) h = true ->
  stateAfter (run zone (h ++ [(now, SetOtcTrade (Some R))])) this
  = stateAfter (step zone now (SetOtcTrade (Some R))) this.
Proof.
  intros H. rewrite stateAfter_run_app.
  cbn [run]. rewrite stateAfter_bind.
  change (stateAfter (ret tt) ?s) with s.
  unfold stateAfter at 1 3.
  rewrite !step_SetOtcTrade, !receiveOtcTrade_record, !updateFields_run.
  cbn [fst snd set_otcTrade set_pendingOtcTrade editMode otcTrade
       pendingOtcTrade].
  rewrite run_editMode by exact H. reflexivity.
Qed.

Lemma last_record_wins_witness :
  let h := [(1600000100000,
             SetOtcTrade
               (Some (StoredTrade.mk "old" "ETH_USD" 1500000000 "5" "200"
                        "1" "USD" "http://x" "first" sell)));
            (1600000200000, Input Notes "changed by hand");
            (1600000300000, Cancel [])] in
  forallb (fun x => negb (setsEditMode (snd x))) h = true
  /\ stateAfter
       (run (fixedZone 0) (h ++ [(1600000400000,
                                  SetOtcTrade (Some scenarioTrade))]))
       (create true None)
     = mkState true (Some scenarioTrade) "abc" "BTC_EUR" "13/09/2020 12:26"
         "1" "9000" "0" "EUR" "" "" "buy" None.
Proof.
  cbv zeta. split; [reflexivity |].
  rewrite (last_record_wins (fixedZone 0)
             [(1600000100000,
               SetOtcTrade
                 (Some (StoredTrade.mk "old" "ETH_USD" 1500000000 "5" "200"
                          "1" "USD" "http://x" "first" sell)));
              (1600000200000, Input Notes "changed by hand");
              (1600000300000, Cancel [])]
             1600000400000 (create true None) scenarioTrade eq_refl).
  vm_compute. reflexivity.
Defined.

End Histories.

(** ** From form to payload *)
Section Payloads.
Import DateObject OtcForm OtcFormTemplate.

(** X1: editing a record without touching the form: for every record
    whose timestamp the display text can carry (local year 0 to 9999,
    the host's offset at that time a whole number of minutes and at most
    a day, the local minute read back with that offset), once the record
    has arrived [submit()] sends the record's own texts and direction,
    the location "external", the record's timestamp without its seconds,
    and the record's identifier in edit mode (none in create mode),
    whatever the form held before. *)
Theorem edit_cycle_payload (zone : Zone) (now1 now2 : Z) (this : state)
    (R : StoredTrade.t) :
  -86400000 <= offsetAtUTC zone (StoredTrade.timestamp R * 1000)
    <= 86400000 ->
  offsetAtUTC zone (StoredTrade.timestamp R * 1000) mod 60000 = 0 ->
  0 <= Moment.year zone (StoredTrade.timestamp R * 1000) <= 9999 ->
  readsBack zone (StoredTrade.timestamp R * 1000) ->
  emittedBy (addTrade zone now2)
    (stateAfter (step zone now1 (SetOtcTrade (Some R))) this)
  = [mkEmitted "save"
       [PayloadArg
          (TradePayload.mk
             (StoredTrade.amount R)
             (StoredTrade.fee R)
             (StoredTrade.fee_currency R)
             (StoredTrade.link R)
             (StoredTrade.notes R)
             (StoredTrade.pair R)
             (StoredTrade.rate R)
             "external"
             (Num (StoredTrade.timestamp R - StoredTrade.timestamp R mod 60))
             (tradeTypeString (StoredTrade.trade_type R))
             (if editMode this
              then Some (StoredTrade.trade_id R) else None))]].
Proof.
  intros Hz Hm Hy Hrb.
  unfold stateAfter.
  rewrite step_SetOtcTrade, receiveOtcTrade_record, updateFields_run.
  cbn [fst snd].
  unfold emittedBy, addTrade, bind, get, emit.
  cbn [id pair amount rate fee feeCurrency link notes type datetime
       editMode set_otcTrade set_pendingOtcTrade app snd].
  rewrite unix_ofString_format by assumption.
  reflexivity.
Qed.

Lemma edit_cycle_payload_witness :
  let R := StoredTrade.mk "7f3" "ETH_USD" 1603585830 "2.5" "410" "0.1" "USD"
             "" "bought at night" sell in
  -86400000 <= offsetAtUTC (fixedZone 330) (StoredTrade.timestamp R * 1000)
    <= 86400000
  /\ offsetAtUTC (fixedZone 330) (StoredTrade.timestamp R * 1000) mod 60000
     = 0
  /\ 0 <= Moment.year (fixedZone 330) (StoredTrade.timestamp R * 1000) <= 9999
  /\ readsBack (fixedZone 330) (StoredTrade.timestamp R * 1000)
  /\ emittedBy (addTrade (fixedZone 330) 1700000000000)
       (stateAfter
          (step (fixedZone 330) 1600000000000 (SetOtcTrade (Some R)))
          (create true None))
     = [mkEmitted "save"
          [PayloadArg
             (TradePayload.mk "2.5" "0.1" "USD" "" "bought at night"
                "ETH_USD" "410" "external" (Num 1603585800) "sell"
                (Some "7f3"))]].
Proof.
  cbv zeta.
  assert (Hz : -86400000 <= offsetAtUTC (fixedZone 330) (1603585830 * 1000)
               <= 86400000) by (vm_compute; split; discriminate).
  assert (Hm : offsetAtUTC (fixedZone 330) (1603585830 * 1000) mod 60000
               = 0) by (vm_compute; reflexivity).
  assert (Hy : 0 <= Moment.year (fixedZone 330) (1603585830 * 1000) <= 9999)
    by (vm_compute; split; discriminate).
  assert (Hrb : readsBack (fixedZone 330) (1603585830 * 1000))
    by reflexivity.
  split; [exact Hz |]. split; [exact Hm |]. split; [exact Hy |].
  split; [exact Hrb |].
  exact (edit_cycle_payload (fixedZone 330) 1600000000000 1700000000000
           (create true None)
           (StoredTrade.mk "7f3" "ETH_USD" 1603585830 "2.5" "410" "0.1" "USD"
              "" "bought at night" sell)
           Hz Hm Hy Hrb).
Defined.

(** On a host whose offsets are whole minutes, a date that the parser
    accepts falls on a whole minute. *)
Lemma ofString_whole_minute (zone : Zone) (now : Z) (s f : string) (t : Z) :
  (forall l, offsetAtLocal zone l mod 60000 = 0) ->
  Moment.ofString zone now s f = Some t -> t mod 60000 = 0.
Proof.
  intros Hzone. unfold Moment.ofString.
  destruct (Moment.configFromArray zone now (Moment.parseTokens f s))
    as [[[[y m] d] h] mi].
  destruct (_ || _); [discriminate |].
  unfold Moment.createLocalDate, TimeClip.
  destruct (_ <=? _); [| discriminate].
  intros H. injection H as <-.
  unfold UTC, LocalTZA, MakeDate, MakeTime, msPerDay, msPerHour,
    msPerMinute, msPerSecond.
  set (x := MakeDay y m d).
  match goal with
  | |- (?a - offsetAtLocal zone ?b) mod 60000 = 0 =>
      generalize (Hzone b); generalize (offsetAtLocal zone b)
  end.
  intros o Ho. Z.to_euclidean_division_equations. lia.
Qed.

(** X2: on a host whose offsets from UTC are whole numbers of minutes,
    [submit()] never sends a time with seconds: whatever the form holds,
    the timestamp of the payload is NaN (the text did not parse) or a
    whole number of minutes since the epoch.  (Where an offset has
    seconds the timestamp is a whole minute of local time instead.) *)
Theorem submit_timestamp_whole_minute (zone : Zone) (now : Z)
    (this : state) :
  (forall l, offsetAtLocal zone l mod 60000 = 0) ->
  exists trade,
    emittedBy (addTrade zone now) this = [mkEmitted "save" [PayloadArg trade]]
    /\ (TradePayload.timestamp trade = NaN
        \/ exists k, TradePayload.timestamp trade = Num (60 * k)).
Proof.
  intros Hzone.
  eexists. split; [reflexivity |]. cbn [TradePayload.timestamp].
  destruct (Moment.ofString zone now (datetime this) format) as [t |] eqn:E.
  - right. exists (t / 60000).
    apply (ofString_whole_minute zone now _ _ t Hzone) in E.
    unfold Moment.unix. f_equal.
    Z.to_euclidean_division_equations. lia.
  - left. reflexivity.
Qed.

Lemma submit_timestamp_whole_minute_witness :
  (forall l, offsetAtLocal centralEurope2020 l mod 60000 = 0)
  /\ exists trade,
       emittedBy (addTrade centralEurope2020 1600000000000)
         (set_datetime "1/2/2020 3:4" (create false None))
       = [mkEmitted "save" [PayloadArg trade]]
       /\ TradePayload.timestamp trade = Num (60 * 26342044).
Proof.
  assert (Hzone : forall l, offsetAtLocal centralEurope2020 l mod 60000 = 0).
  { intros l. cbn [offsetAtLocal centralEurope2020].
    destruct (_ && _); reflexivity. }
  split; [exact Hzone |].
  destruct (submit_timestamp_whole_minute centralEurope2020 1600000000000
              (set_datetime "1/2/2020 3:4" (create false None)) Hzone)
    as (trade & Hsave & Hts).
  exists trade. split; [exact Hsave |].
  assert (E : emittedBy (addTrade centralEurope2020 1600000000000)
                (set_datetime "1/2/2020 3:4" (create false None))
              = [mkEmitted "save"
                   [PayloadArg
                      (TradePayload.mk "" "" "" "" "" "" "" "external"
                         (Num (60 * 26342044)) "buy" None)]])
    by (vm_compute; reflexivity).
  rewrite E in Hsave. injection Hsave as <-. reflexivity.
Defined.

(** X3: a new trade keeps the time of the reset: after [cancel] at a
    clock reading the display text can carry (local year 0 to 9999, the
    host's offset then a whole number of minutes and at most a day, the
    local minute read back with that offset), [submit()] sends empty
    texts, the direction "buy", the location "external" and the minute
    in which the form was reset, whenever it is called; in edit mode the
    payload carries the empty identifier. *)
Theorem cancel_then_submit (zone : Zone) (now1 now2 : Z) (this : state)
    (callArgs : list EventArg) :
  -86400000 <= offsetAtUTC zone now1 <= 86400000 ->
  offsetAtUTC zone now1 mod 60000 = 0 ->
  0 <= Moment.year zone now1 <= 9999 ->
  readsBack zone now1 ->
  emittedBy (addTrade zone now2) (stateAfter (cancel zone now1 callArgs) this)
  = [mkEmitted "save"
       [PayloadArg
          (TradePayload.mk "" "" "" "" "" "" "" "external"
             (Num (60 * (now1 / 60000))) "buy"
             (if editMode this then Some "" else None))]].
Proof.
  intros Hz Hm Hy Hrb.
  unfold cancel. rewrite stateAfter_bind.
  change (stateAfter (emit "cancel" callArgs) ?s) with s.
  unfold stateAfter. rewrite resetFields_run. cbn [fst snd].
  unfold emittedBy, addTrade, bind, get, emit.
  cbn [id pair amount rate fee feeCurrency link notes type datetime
       editMode app snd].
  rewrite ofString_format by assumption.
  unfold Moment.unix.
  replace ((now1 - now1 mod 60000) / 1000) with (60 * (now1 / 60000))
    by (Z.to_euclidean_division_equations; lia).
  reflexivity.
Qed.

Lemma cancel_then_submit_witness :
  -86400000 <= offsetAtUTC centralEurope2020 1600000000123 <= 86400000
  /\ offsetAtUTC centralEurope2020 1600000000123 mod 60000 = 0
  /\ 0 <= Moment.year centralEurope2020 1600000000123 <= 9999
  /\ readsBack centralEurope2020 1600000000123
  /\ emittedBy (addTrade centralEurope2020 1600000999000)
       (stateAfter (cancel centralEurope2020 1600000000123 [])
          (set_pair "BTC_EUR" (create true (Some scenarioTrade))))
     = [mkEmitted "save"
          [PayloadArg
             (TradePayload.mk "" "" "" "" "" "" "" "external"
                (Num 1599999960) "buy" (Some ""))]].
Proof.
  assert (Hz : -86400000 <= offsetAtUTC centralEurope2020 1600000000123
               <= 86400000)
    by (vm_compute; split; discriminate).
  assert (Hm : offsetAtUTC centralEurope2020 1600000000123 mod 60000 = 0)
    by (vm_compute; reflexivity).
  assert (Hy : 0 <= Moment.year centralEurope2020 1600000000123 <= 9999)
    by (vm_compute; split; discriminate).
  assert (Hrb : readsBack centralEurope2020 1600000000123)
    by (vm_compute; reflexivity).
  split; [exact Hz |]. split; [exact Hm |]. split; [exact Hy |].
  split; [exact Hrb |].
  exact (cancel_then_submit centralEurope2020 1600000000123 1600000999000
           (set_pair "BTC_EUR" (create true (Some scenarioTrade))) []
           Hz Hm Hy Hrb).
Defined.

(** X4: a record whose timestamp is beyond the range of dates (more than
    8.64e15 milliseconds from the epoch) fills the date/time field with
    the text "Invalid date", and [submit()] then sends NaN as the
    timestamp. *)
Theorem record_out_of_date_range (zone : Zone) (now1 now2 : Z)
    (this : state) (R : StoredTrade.t) :
  8640000000000000 < Z.abs (StoredTrade.timestamp R * 1000) ->
  let this' := stateAfter (step zone now1 (SetOtcTrade (Some R))) this in
  datetime this' = "Invalid date"
  /\ exists trade,
       emittedBy (addTrade zone now2) this'
       = [mkEmitted "save" [PayloadArg trade]]
       /\ TradePayload.timestamp trade = NaN.
Proof.
  intros H this'.
  assert (E : datetime this' = "Invalid date").
  { subst this'. unfold stateAfter.
    rewrite step_SetOtcTrade, receiveOtcTrade_record, updateFields_run.
    cbn [fst snd datetime].
    unfold Moment.ofMillis, TimeClip, maxTimeValue.
    destruct (Z.leb_spec (Z.abs (StoredTrade.timestamp R * 1000))
                8640000000000000); [lia | reflexivity]. }
  split; [exact E |].
  eexists. split; [reflexivity |].
  cbn [TradePayload.timestamp]. rewrite E. reflexivity.
Qed.

Lemma record_out_of_date_range_witness :
  let R := StoredTrade.mk "abc" "BTC_EUR" 1600000000000000 "1" "9000" "0"
             "EUR" "" "" buy in
  8640000000000000 < Z.abs (StoredTrade.timestamp R * 1000)
  /\ datetime
       (stateAfter (step (fixedZone 0) 1600000100000 (SetOtcTrade (Some R)))
          (create true None))
     = "Invalid date".
Proof.
  cbv zeta. split; [cbn; lia |].
  exact (proj1 (record_out_of_date_range (fixedZone 0) 1600000100000
                  1600000200000 (create true None)
                  (StoredTrade.mk "abc" "BTC_EUR" 1600000000000000 "1" "9000"
                     "0" "EUR" "" "" buy)
                  ltac:(cbn; lia))).
Defined.

(** X9: what the buttons do.  In create mode the card has one button,
    "Add  Trade", and a click sends a payload without identifier.  In
    edit mode it has two: "Modify Trade", whose click sends a payload
    with the form's identifier, and "Cancel", whose click resets the
    form and emits "cancel" with the click event as its argument (the
    handler is the method itself). *)
Theorem buttons_and_clicks (zone : Zone) (now : Z) (this : state) :
  exists trade,
    map (fun b =>
           (label b, emittedBy (onClick b now) this,
            stateAfter (onClick b now) this))
        (cardActions zone this)
    = (if editMode this
       then [("Modify Trade", [mkEmitted "save" [PayloadArg trade]], this);
             ("Cancel", [mkEmitted "cancel" [DomEventArg "click"]],
              mkState (editMode this) (otcTrade this) "" ""
                (Moment.format zone format (Moment.ofMillis now))
                "" "" "" "" "" "" "buy" (pendingOtcTrade this))]
       else [("Add  Trade", [mkEmitted "save" [PayloadArg trade]], this)])
    /\ TradePayload.trade_id trade
       = (if editMode this then Some (id this) else None).
Proof.
  exists (TradePayload.mk (amount this) (fee this) (feeCurrency this)
            (link this) (notes this) (pair this) (rate this) "external"
            (Moment.unix
               (Moment.ofString zone now (datetime this) format))
            (type this) (if editMode this then Some (id this) else None)).
  split; [| reflexivity].
  unfold cardActions. destruct (editMode this) eqn:He;
    [| cbn [map label onClick]; unfold emittedBy, stateAfter, addTrade,
         bind, get, emit; cbn [fst snd app]; rewrite He; reflexivity].
  cbn [map label onClick].
  unfold cancel. rewrite stateAfter_bind, emittedBy_bind.
  change (stateAfter (emit "cancel" ?a) ?s) with s.
  unfold stateAfter at 2. unfold emittedBy at 2 3.
  rewrite resetFields_run. cbn [fst snd app].
  unfold emittedBy, stateAfter, addTrade, bind, get, emit.
  cbn [fst snd app]. rewrite ?resetFields_run. cbn [fst snd].
  rewrite He. reflexivity.
Qed.

End Payloads.

(** ** Where identifiers come from *)
Section Identifiers.
Import DateObject OtcForm History.





End Identifiers.
